(** * auto-readme-ai: the workspace scanner and the sample selector

    A shallow embedding of [src/utils.js] (the scanning engine of the
    extension) and the properties of its specification.

    Conventions of the model.
    - A JavaScript string is a [string]: the bytes of its UTF-8 encoding.
      Text read from a file is the decoding [Utf8.decode] of the file's
      bytes, in which each ill-formed sequence has become U+FFFD;
      [toLowerCase] acts on the ASCII letters.
    - A JavaScript array is a [list]; [push] appends at the end.
    - The plain object [fileContents] is an association list in the order of
      [Object.keys], which for the keys the scanner writes (none of them is
      an array index) is the order of first insertion.
    - A path that Node has resolved is the list of its segments; the
      functions of Node's [path] module that take text ([basename],
      [extname]) are modelled on text.
    - The file system is a tree; an operation of [fs] that throws is an
      absent value, and each [try]/[catch] of the source is the [match] that
      handles it. *)

From Stdlib Require Import String Ascii List Bool Arith NArith ZArith Lia.
Import ListNotations.
Open Scope string_scope.

#[local] Set Warnings "-register-all".

(** ** JavaScript strings and arrays *)

Module Js.

Definition lower_ascii (c : ascii) : ascii :=
  let n := nat_of_ascii c in
  if ((65 <=? n) && (n <=? 90))%nat then ascii_of_nat (n + 32) else c.

(** [String.prototype.toLowerCase] *)
Fixpoint toLowerCase (s : string) : string :=
  match s with
  | EmptyString => EmptyString
  | String c s' => String (lower_ascii c) (toLowerCase s')
  end.

(** [String.prototype.startsWith] *)
Definition startsWith (s p : string) : bool := String.prefix p s.

(** [String.prototype.includes]: [t] occurs in [s] *)
Fixpoint str_includes (s t : string) : bool :=
  String.prefix t s ||
  match s with
  | EmptyString => false
  | String _ s' => str_includes s' t
  end.

(** [String.prototype.endsWith] *)
Definition endsWith (s p : string) : bool :=
  let n := String.length s in
  let m := String.length p in
  (m <=? n)%nat && String.eqb (String.substring (n - m) m s) p.

(** [Array.prototype.includes] on an array of strings *)
Definition includes (l : list string) (x : string) : bool :=
  existsb (String.eqb x) l.

(** [Array.prototype.push] *)
Definition push {A : Type} (l : list A) (x : A) : list A := (l ++ [x])%list.

(** [s.split('/').pop()]: what follows the last slash of [s] *)
Fixpoint split_pop_from (s acc : string) : string :=
  match s with
  | EmptyString => acc
  | String c s' =>
      if Ascii.eqb c "/" then split_pop_from s' EmptyString
      else split_pop_from s' (acc ++ String c EmptyString)
  end.

Definition split_pop (s : string) : string := split_pop_from s EmptyString.

(** The first [n] bytes of [s]: what [fs.readSync(fd, buffer, 0, n, 0)]
    leaves in a buffer of [n] bytes when the file has at least [n]. *)
Fixpoint take (n : nat) (s : string) : string :=
  match n, s with
  | S n', String c s' => String c (take n' s')
  | _, _ => EmptyString
  end.

End Js.

(** ** Decoding a buffer as UTF-8 *)

Module Utf8.

(** U+FFFD, the replacement character, in UTF-8. *)
Definition replacement : string :=
  String "239" (String "191" (String "189" EmptyString)).

Definition within (lower upper n : N) : bool :=
  ((lower <=? n) && (n <=? upper))%N.

(** The UTF-8 decoder of [buffer.toString('utf8')] and of
    [fs.readFileSync(path, 'utf8')], as the Encoding standard has it, over
    the bytes still to read.  [pending] holds the bytes of the sequence
    under way, [needed] how many more it wants, [lower] and [upper] the
    bounds of the next one.  A byte that cannot continue the sequence ends
    it with U+FFFD and is read again as the start of a sequence; so is the
    end of the buffer inside a sequence.  A byte order mark is kept. *)
Fixpoint decodeFrom (pending : string) (needed : nat) (lower upper : N)
    (bytes : string) {struct bytes} : string :=
  match bytes with
  | EmptyString =>
      match needed with
      | 0 => EmptyString
      | S _ => replacement
      end
  | String b rest =>
      let n := N_of_ascii b in
      let start (_ : unit) :=
        if within 0 127 n then
          String b (decodeFrom EmptyString 0 128 191 rest)
        else if within 194 223 n then
          decodeFrom (String b EmptyString) 1 128 191 rest
        else if within 224 239 n then
          decodeFrom (String b EmptyString) 2
            (if (n =? 224)%N then 160 else 128)%N
            (if (n =? 237)%N then 159 else 191)%N rest
        else if within 240 244 n then
          decodeFrom (String b EmptyString) 3
            (if (n =? 240)%N then 144 else 128)%N
            (if (n =? 244)%N then 143 else 191)%N rest
        else replacement ++ decodeFrom EmptyString 0 128 191 rest in
      match needed with
      | 0 => start tt
      | S needed' =>
          if within lower upper n then
            match needed' with
            | 0 =>
                pending ++
                String b (decodeFrom EmptyString 0 128 191 rest)
            | S _ =>
                decodeFrom (pending ++ String b EmptyString) needed'
                  128 191 rest
            end
          else replacement ++ start tt
      end
  end.

Definition decode (bytes : string) : string :=
  decodeFrom EmptyString 0 128 191 bytes.

End Utf8.

(** ** Node's [path] module (POSIX) *)

Module NodePath.

(** A resolved path: its segments from the file system's root. *)
Definition Path := list string.

(** [path.join(dir, name)] for an entry [name] of the directory [dir] *)
Definition join (dir : Path) (name : string) : Path := (dir ++ [name])%list.

(** [path.relative(from, to)]: drop the common prefix, climb out of what is
    left of [from], descend into what is left of [to]. *)
Fixpoint relative_segments (from to : Path) : Path :=
  match from, to with
  | f :: from', t :: to' =>
      if String.eqb f t then relative_segments from' to'
      else (repeat ".." (List.length from) ++ to)%list
  | [], _ => to
  | _ :: _, [] => repeat ".." (List.length from)
  end.

Definition text_of_segments (p : Path) : string := String.concat "/" p.

(** The text of an absolute path. *)
Definition text (p : Path) : string := "/" ++ text_of_segments p.

Definition relative (from to : Path) : string :=
  text_of_segments (relative_segments from to).

Fixpoint strip_leading_slashes (s : string) : string :=
  match s with
  | String c s' => if Ascii.eqb c "/" then strip_leading_slashes s' else s
  | EmptyString => EmptyString
  end.

Fixpoint string_rev_onto (s acc : string) : string :=
  match s with
  | EmptyString => acc
  | String c s' => string_rev_onto s' (String c acc)
  end.

Definition string_rev (s : string) : string := string_rev_onto s EmptyString.

Definition strip_trailing_slashes (s : string) : string :=
  string_rev (strip_leading_slashes (string_rev s)).

(** [path.basename(p)]: trailing slashes are ignored, then what follows
    the last slash. *)
Definition basename (p : string) : string :=
  Js.split_pop (strip_trailing_slashes p).

(** The suffix of [s] that starts at its last dot. *)
Fixpoint from_last_dot (s : string) : option string :=
  match s with
  | EmptyString => None
  | String c s' =>
      match from_last_dot s' with
      | Some e => Some e
      | None => if Ascii.eqb c "." then Some s else None
      end
  end.

(** [path.extname(p)]: from the last dot of the base name; empty when
    there is no dot, when the only dot is the first character, and for
    the name [..]. *)
Definition extname (p : string) : string :=
  match basename p with
  | EmptyString => EmptyString
  | String c rest =>
      if String.eqb (String c rest) ".." then EmptyString
      else match from_last_dot rest with
           | Some e => e
           | None => EmptyString
           end
  end.

End NodePath.

(** ** Importance oracle *)

Definition importantRootFiles : list string :=
  [ "readme.md"; "license"; "license.md"; "license.txt";
    "package.json"; "setup.py"; "requirements.txt"; "pyproject.toml";
    "cargo.toml"; "gemfile"; "composer.json"; "go.mod";
    "dockerfile"; "docker-compose.yml"; "makefile"; "cmakelists.txt";
    ".gitignore"; ".travis.yml"; ".github"; "contributing.md";
    "changelog.md"; "history.md"; "code_of_conduct.md"; "main.py"; "app.py" ].

Definition importantExtensions : list string :=
  [ ".md"; ".rst"; ".txt"; ".py"; ".js"; ".php";
    ".json"; ".yaml"; ".yml"; ".toml"; ".ini"; ".cfg";
    ".py"; ".js"; ".ts"; ".java"; ".c"; ".cpp"; ".h"; ".hpp";
    ".go"; ".rb"; ".php"; ".cs"; ".swift"; ".kt"; ".rs";
    ".html"; ".css" ].

Definition isLikelyImportantFile (filePath : string) : bool :=
  let fileName := Js.toLowerCase (NodePath.basename filePath) in
  let ext := Js.toLowerCase (NodePath.extname filePath) in
  if Js.includes importantRootFiles fileName then true
  else if Js.includes importantExtensions ext then true
  else if (Js.startsWith fileName "main." || Js.startsWith fileName "index.")
          && Js.includes importantExtensions ext then true
  else false.

Definition unimportantDirs : list string :=
  [ "node_modules"; ".git"; ".github"; ".vscode"; ".idea";
    "venv"; "env"; ".env"; "__pycache__"; ".pytest_cache";
    "build"; "dist"; "out"; "target"; "bin"; "obj";
    "coverage"; "logs"; "tmp"; "temp"; "cache" ].

Definition importantDirs : list string :=
  [ "src"; "lib"; "app"; "api"; "core"; "docs";
    "examples"; "tests"; "scripts"; "config"; "public";
    "assets"; "resources"; "templates"; "views"; "components" ].

Definition isLikelyImportantDirectory (dirName : string) : bool :=
  let lowercaseName := Js.toLowerCase dirName in
  if Js.includes unimportantDirs lowercaseName then false
  else if Js.includes importantDirs lowercaseName then true
  else true.

(** ** Project types and the budget policy *)

Inductive ProjectType :=
| node | python | java | rust | go | ruby | php | unknown.

Definition calculateMaxFiles (projectType : ProjectType) : nat :=
  let baseMax := 50 in
  match projectType with
  | node => baseMax + 20
  | python => baseMax + 10
  | java => baseMax + 15
  | rust => baseMax + 5
  | go => baseMax + 10
  | _ => baseMax
  end.

Definition getSourceFileExtensions (projectType : ProjectType)
    (languages : list string) : list string :=
  match projectType with
  | node =>
      let jsExts := [".js"; ".jsx"; ".ts"; ".tsx"] in
      if Js.includes languages "react" then [".jsx"; ".tsx"; ".js"; ".ts"]
      else jsExts
  | python => [".py"]
  | java => [".java"]
  | rust => [".rs"]
  | go => [".go"]
  | ruby => [".rb"]
  | php => [".php"]
  | unknown =>
      [".js"; ".py"; ".java"; ".c"; ".cpp"; ".h"; ".go"; ".rb"; ".php"; ".cs"]
  end.

(** ** The file system *)

(** What a call into [fs] does: it returns, or it throws an error with a
    code ([ENOENT], [ENOTDIR], [EACCES], ...). *)
Inductive Exc (A : Type) :=
| Returned (a : A)
| Threw (code : string).

Arguments Returned {A} a.
Arguments Threw {A} code.

(** A directory entry as [fs.readdirSync(dir, { withFileTypes: true })]
    lists it.  [data] of a file is what [statSync] and the reads of its
    content do: they give its bytes, or throw an error.  [Other] is an
    entry for which both [isFile()] and [isDirectory()] are false. *)
Inductive Entry :=
| File (name : string) (data : Exc string)
| Directory (name : string) (sub : Dir)
| Other (name : string)
with Dir :=
| NoListing (code : string)
| Listing (entries : list Entry).

Definition entry_name (e : Entry) : string :=
  match e with
  | File name _ => name
  | Directory name _ => name
  | Other name => name
  end.

Definition readdirSync (dir : Dir) : Exc (list Entry) :=
  match dir with
  | NoListing code => Threw code
  | Listing entries => Returned entries
  end.

(** What [fs.readFileSync(path, 'utf8')] does for a file with this
    [data]: the decoding of its bytes, or the error. *)
Definition readText (data : Exc string) : Exc string :=
  match data with
  | Returned bytes => Returned (Utf8.decode bytes)
  | Threw code => Threw code
  end.

(** [fs.readFileSync(path.join(dir, name), 'utf8')] in the directory that
    lists [entries] (names are compared exactly, as POSIX does). *)
Definition readFileSync (entries : list Entry) (name : string) : Exc string :=
  match find (fun e => String.eqb (entry_name e) name) entries with
  | Some (File _ data) => readText data
  | Some (Directory _ _) => Threw "EISDIR"
  | Some (Other _) => Threw "EACCES"
  | None => Threw "ENOENT"
  end.

(** [stats.size] of a file with these bytes *)
Definition size (bytes : string) : N := N.of_nat (String.length bytes).

(** ** The manifest as JavaScript sees it *)

(** The value [JSON.parse] returns.  Of a number the scanner only observes
    whether it is zero. *)
Inductive Json :=
| JNull
| JBool (b : bool)
| JNumber (n : Z)
| JString (s : string)
| JArray (items : list Json)
| JObject (fields : list (string * Json)).

(** A JavaScript value of the classifier: [None] is [undefined]. *)
Definition JsValue := option Json.

Definition truthy (v : JsValue) : bool :=
  match v with
  | None => false
  | Some JNull => false
  | Some (JBool b) => b
  | Some (JNumber n) => negb (n =? 0)%Z
  | Some (JString s) => negb (String.eqb s EmptyString)
  | Some (JArray _) => true
  | Some (JObject _) => true
  end.

(** The property read [v.k], for the names the classifier reads (no
    prototype defines them) and a [v] that is neither [undefined] nor
    [null]: an own property of an object, [undefined] otherwise. *)
Definition member (v : JsValue) (k : string) : JsValue :=
  match v with
  | Some (JObject fields) =>
      option_map snd (find (fun kv => String.eqb (fst kv) k) fields)
  | _ => None
  end.

(** ** The scan result *)

(** What [fileContents] holds under a key: the parsed manifest, or text. *)
Inductive Content :=
| Parsed (j : Json)
| Text (s : string).

Definition Obj := list (string * Content).

(** [o[k] = v]: an existing key keeps its place, a new one goes last. *)
Fixpoint obj_set (o : Obj) (k : string) (v : Content) : Obj :=
  match o with
  | [] => [(k, v)]
  | (k', v') :: o' =>
      if String.eqb k' k then (k, v) :: o' else (k', v') :: obj_set o' k v
  end.

(** [Object.keys(o)] *)
Definition obj_keys (o : Obj) : list string := map fst o.

(** [o[k]] *)
Definition obj_get (o : Obj) (k : string) : option Content :=
  option_map snd (find (fun kv => String.eqb (fst kv) k) o).

Record ScanResult := mkScanResult {
  files : list string;
  directories : list string;
  fileContents : Obj;
  projectType : ProjectType;
  mainLanguages : list string
}.

Definition push_file (r : ScanResult) (p : string) : ScanResult :=
  mkScanResult (Js.push (files r) p) (directories r) (fileContents r)
               (projectType r) (mainLanguages r).

Definition push_directory (r : ScanResult) (p : string) : ScanResult :=
  mkScanResult (files r) (Js.push (directories r) p) (fileContents r)
               (projectType r) (mainLanguages r).

Definition set_content (r : ScanResult) (k : string) (v : Content) : ScanResult :=
  mkScanResult (files r) (directories r) (obj_set (fileContents r) k v)
               (projectType r) (mainLanguages r).

Definition set_projectType (r : ScanResult) (t : ProjectType) : ScanResult :=
  mkScanResult (files r) (directories r) (fileContents r) t (mainLanguages r).

Definition push_language (r : ScanResult) (l : string) : ScanResult :=
  mkScanResult (files r) (directories r) (fileContents r)
               (projectType r) (Js.push (mainLanguages r) l).

(** ** Classifier and tree walker *)

Definition maxDepth : nat := 5.

(** The ceilings of the walker: [50 * 1024] for important files and
    [30 * 1024] for source files. *)
Definition importantMaxFileSize : N := 50 * 1024.
Definition sourceMaxFileSize : N := 30 * 1024.

(** The marker: a line feed, then the notice. *)
Definition truncationMarker : string :=
  String "010" "... [file truncated due to size]".

Definition readableExtensions : list string :=
  [ ".md"; ".txt"; ".json"; ".js"; ".jsx"; ".ts"; ".tsx"; ".py"; ".java";
    ".c"; ".cpp"; ".h"; ".go"; ".rb"; ".php"; ".cs"; ".html"; ".css";
    ".yml"; ".yaml"; ".toml"; ".ini"; ".cfg" ].

Definition defaultIgnoreDirs : list string :=
  [ ".git"; "node_modules"; ".vscode"; "dist"; "build"; "out" ].

Definition defaultIgnoreFiles : list string :=
  [ ".DS_Store"; ".gitignore"; "package-lock.json"; "yarn.lock" ].

(** The text the walker stores for a file of these bytes, once [statSync]
    has returned their size.  When the size exceeds [maxFileSize]:
    [buffer.toString('utf8')] of the first [maxFileSize] bytes, and the
    marker.  Otherwise [fs.readFileSync(entryPath, 'utf8')]. *)
Definition readUpTo (maxFileSize : N) (bytes : string) : string :=
  if (maxFileSize <? size bytes)%N
  then Utf8.decode (Js.take (N.to_nat maxFileSize) bytes) ++ truncationMarker
  else Utf8.decode bytes.

Section Scanner.

(** [JSON.parse]: the value of a text, or nothing when it throws. *)
Variable JSON_parse : string -> option Json.

(** The [try] block that reads the manifest of a node project. *)
Definition readPackageJson (entries : list Entry) (result : ScanResult)
    : ScanResult :=
  match readFileSync entries "package.json" with
  | Threw _ => result
  | Returned text =>
    match JSON_parse text with
    | None => result
    | Some packageJson =>
      let result := set_content result "package.json" (Parsed packageJson) in
      match packageJson with
      | JNull => result (* reading a property of null throws *)
      | _ =>
        let devDependencies := member (Some packageJson) "devDependencies" in
        let dependencies := member (Some packageJson) "dependencies" in
        let result :=
          if truthy devDependencies &&
             (truthy (member devDependencies "typescript") ||
              truthy dependencies &&
              truthy (member dependencies "typescript"))
          then push_language result "typescript" else result in
        if truthy dependencies then
          let result := if truthy (member dependencies "react")
                        then push_language result "react" else result in
          let result := if truthy (member dependencies "vue")
                        then push_language result "vue" else result in
          let result := if truthy (member dependencies "angular")
                        then push_language result "angular" else result in
          let result := if truthy (member dependencies "express")
                        then push_language result "express" else result in
          let result := if truthy (member dependencies "next")
                        then push_language result "nextjs" else result in
          result
        else result
      end
    end
  end.

(** [result.fileContents[key] = fs.readFileSync(...)] inside its [try]. *)
Definition captureText (result : ScanResult) (key : string)
    (read : Exc string) : ScanResult :=
  match read with
  | Returned text => set_content result key (Text text)
  | Threw _ => result
  end.

(** The body of the classifier's loop for one entry of the root. *)
Definition identifyEntry (entries : list Entry) (result : ScanResult)
    (entry : Entry) : ScanResult :=
  match entry with
  | File name data =>
    let fileName := Js.toLowerCase name in
    if String.eqb fileName "package.json" then
      let result := set_projectType result node in
      let result := push_language result "javascript" in
      readPackageJson entries result
    else if String.eqb fileName "requirements.txt" ||
            String.eqb fileName "setup.py" ||
            String.eqb fileName "pyproject.toml" then
      let result := set_projectType result python in
      let result := push_language result "python" in
      if String.eqb fileName "requirements.txt"
      then captureText result "requirements.txt"
             (readFileSync entries "requirements.txt")
      else result
    else if String.eqb fileName "pom.xml" then
      push_language (set_projectType result java) "java"
    else if String.eqb fileName "cargo.toml" then
      push_language (set_projectType result rust) "rust"
    else if String.eqb fileName "go.mod" then
      push_language (set_projectType result go) "go"
    else if String.eqb fileName "gemfile" then
      push_language (set_projectType result ruby) "ruby"
    else if String.eqb fileName "composer.json" then
      push_language (set_projectType result php) "php"
    else if String.eqb fileName "dockerfile" ||
            String.eqb fileName "docker-compose.yml" then
      push_language result "docker"
    else if String.eqb fileName "readme.md" then
      captureText result "README.md" (readText data)
    else if Js.startsWith fileName "license" then
      captureText result "LICENSE" (readText data)
    else result
  | _ => result
  end.

(** [identifyProjectType(rootPath, result)]; [root] is what the file system
    holds at [rootPath]. *)
Definition identifyProjectType (root : Dir) (result : ScanResult)
    : ScanResult :=
  match readdirSync root with
  | Threw _ => result
  | Returned entries => fold_left (identifyEntry entries) entries result
  end.

(** The branch of the walker's loop for a file entry. *)
Definition visitFile (filesToIgnore sourceExtensions : list string)
    (maxFiles : nat) (rootPath : NodePath.Path) (result : ScanResult)
    (fileName : string) (data : Exc string) : ScanResult :=
  let entryPath := NodePath.join rootPath fileName in
  let relativePath := NodePath.relative rootPath entryPath in
  if Js.includes filesToIgnore fileName then result
  else if (maxFiles <=? List.length (obj_keys (fileContents result)))%nat then
    if isLikelyImportantFile (NodePath.text entryPath)
    then push_file result relativePath
    else result
  else if isLikelyImportantFile (NodePath.text entryPath) then
    let result := push_file result relativePath in
    let ext := Js.toLowerCase (NodePath.extname fileName) in
    if Js.includes readableExtensions ext ||
       String.eqb (Js.toLowerCase fileName) "dockerfile" ||
       String.eqb (Js.toLowerCase fileName) "makefile" ||
       String.eqb (Js.toLowerCase fileName) "license"
    then
      match data with
      | Returned bytes =>
          set_content result relativePath
            (Text (readUpTo importantMaxFileSize bytes))
      | Threw _ => result
      end
    else result
  else if Js.includes sourceExtensions
            (Js.toLowerCase (NodePath.extname fileName)) then
    let result := push_file result relativePath in
    match data with
    | Returned bytes =>
        set_content result relativePath
          (Text (readUpTo sourceMaxFileSize bytes))
    | Threw _ => result
    end
  else result.

(** [scanImportantFiles(rootPath, result, dirsToIgnore, filesToIgnore, depth)];
    [dir] is what the file system holds at [rootPath]. *)
Fixpoint scanImportantFiles (dirsToIgnore filesToIgnore : list string)
    (rootPath : NodePath.Path) (dir : Dir) (result : ScanResult)
    (depth : nat) {struct dir} : ScanResult :=
  if (maxDepth <? depth)%nat then result
  else
    match dir with
    | NoListing _ => result
    | Listing entries =>
      let sourceExtensions :=
        getSourceFileExtensions (projectType result) (mainLanguages result) in
      let maxFiles := calculateMaxFiles (projectType result) in
      fold_left
        (fun result entry =>
           match entry with
           | Directory dirName sub =>
             let entryPath := NodePath.join rootPath dirName in
             let relativePath := NodePath.relative rootPath entryPath in
             if Js.includes dirsToIgnore dirName then result
             else if isLikelyImportantDirectory dirName then
               scanImportantFiles dirsToIgnore filesToIgnore entryPath sub
                 (push_directory result relativePath) (depth + 1)
             else result
           | File fileName data =>
             visitFile filesToIgnore sourceExtensions maxFiles rootPath
               result fileName data
           | Other _ => result
           end)
        entries result
    end.

Definition emptyResult : ScanResult :=
  mkScanResult [] [] [] unknown [].

(** [scanWorkspace(rootPath, ignoreDirs, ignoreFiles)]: how the promise it
    returns settles. *)
Definition scanWorkspace (rootPath : NodePath.Path) (root : Dir)
    (ignoreDirs ignoreFiles : list string) : Exc ScanResult :=
  let dirsToIgnore := (defaultIgnoreDirs ++ ignoreDirs)%list in
  let filesToIgnore := (defaultIgnoreFiles ++ ignoreFiles)%list in
  let result := emptyResult in
  let result := identifyProjectType root result in
  let result :=
    scanImportantFiles dirsToIgnore filesToIgnore rootPath root result 0 in
  Returned result.

End Scanner.

(** ** Sample selector *)

(** A pattern of the selector's tables, all of one shape:
    [/^stem(a|b)$/i] when [anchored], [/stem(a|b)$/i] otherwise ([stem]
    holds the literal text the pattern spells, its escaped dot included). *)
Record RegExp := mkRegExp {
  anchored : bool;
  stem : string;
  alternatives : list string
}.

(** The lower-case words a pattern spells. *)
Definition words (p : RegExp) : list string :=
  map (fun a => Js.toLowerCase (stem p ++ a)) (alternatives p).

(** [pattern.test(s)], also the truth of [s.match(pattern)]: with the [i]
    flag letters match in either case; [$] is the end of [s]. *)
Definition regexp_test (p : RegExp) (s : string) : bool :=
  existsb
    (fun w =>
       if anchored p then String.eqb (Js.toLowerCase s) w
       else Js.endsWith (Js.toLowerCase s) w)
    (words p).

Definition getPriorityFilesForProjectType (projectType : ProjectType)
    (languages : list string) : list RegExp :=
  match projectType with
  | node =>
      let patterns :=
        [ mkRegExp true "index." ["js"; "ts"];
          mkRegExp true "main." ["js"; "ts"];
          mkRegExp true "app." ["js"; "ts"] ] in
      if Js.includes languages "react" then
        (patterns ++ [ mkRegExp true "app." ["jsx"; "tsx"];
                       mkRegExp true "index." ["jsx"; "tsx"] ])%list
      else patterns
  | python =>
      [ mkRegExp true "main." ["py"]; mkRegExp true "app." ["py"];
        mkRegExp true "__init__." ["py"] ]
  | java =>
      [ mkRegExp true "main." ["java"]; mkRegExp true "application." ["java"] ]
  | rust => [ mkRegExp true "main." ["rs"]; mkRegExp true "lib." ["rs"] ]
  | go => [ mkRegExp true "main." ["go"] ]
  | ruby =>
      [ mkRegExp true "main." ["rb"]; mkRegExp true "application." ["rb"] ]
  | php => [ mkRegExp true "index." ["php"] ]
  | unknown => []
  end.

Definition getMainFilePatterns (projectType : ProjectType)
    (languages : list string) : list RegExp :=
  let patterns :=
    match projectType with
    | node =>
        let patterns :=
          [ mkRegExp false "index." ["js"; "ts"];
            mkRegExp false "main." ["js"; "ts"];
            mkRegExp false "app." ["js"; "ts"] ] in
        if Js.includes languages "react" then
          (patterns ++ [ mkRegExp false "App." ["js"; "tsx"];
                         mkRegExp false "index." ["js"; "tsx"] ])%list
        else patterns
    | python =>
        [ mkRegExp false "main." ["py"]; mkRegExp false "__init__." ["py"];
          mkRegExp false "app." ["py"] ]
    | java =>
        [ mkRegExp false "Main." ["java"];
          mkRegExp false "Application." ["java"] ]
    | rust => [ mkRegExp false "main." ["rs"]; mkRegExp false "lib." ["rs"] ]
    | go => [ mkRegExp false "main." ["go"] ]
    | ruby =>
        [ mkRegExp false "main." ["rb"];
          mkRegExp false "application." ["rb"] ]
    | php => [ mkRegExp false "index." ["php"] ]
    | unknown => []
    end in
  (patterns ++ [ mkRegExp false "README." ["md"];
                 mkRegExp false "CONTRIBUTING." ["md"] ])%list.

Definition maxSamples : nat := 10.

Definition lineFeed : string := String "010" EmptyString.

(** The opening of an excerpt, which is also what the selector searches
    [samples] for to tell whether a path was taken already. *)
Definition excerptHeader (filePath : string) : string :=
  "Source code (" ++ filePath ++ "):".

(** One excerpt as the template literal spells it. *)
Definition excerptText (filePath content : string) : string :=
  excerptHeader filePath ++ lineFeed ++ "```" ++ lineFeed ++
  content ++ lineFeed ++ "```" ++ lineFeed ++ lineFeed.

(** The variables of [getSourceCodeSamples].  [excerpts] is not in the
    source: it records the paths of the excerpts appended to [samples], in
    order. *)
Record Selection := mkSelection {
  samples : string;
  sampleCount : nat;
  excerpts : list string
}.

Section Selector.

(** How a template literal spells a parsed manifest. *)
Variable String_of_Json : Json -> string.

(** [`${workspaceData.fileContents[filePath]}`] *)
Definition contentText (o : Obj) (filePath : string) : string :=
  match obj_get o filePath with
  | Some (Text s) => s
  | Some (Parsed j) => String_of_Json j
  | None => "undefined"
  end.

(** [samples += `Source code (...)`; sampleCount++] *)
Definition addSample (o : Obj) (st : Selection) (filePath : string)
    : Selection :=
  mkSelection (samples st ++ excerptText filePath (contentText o filePath))
              (sampleCount st + 1)
              (Js.push (excerpts st) filePath).

(** Each loop of the selector begins with
    [if (sampleCount >= maxSamples) break;].  As [sampleCount] never
    decreases, leaving the loop there and running the remaining iterations
    through the same test give the same state. *)
Definition unlessFull (st : Selection) (body : Selection) : Selection :=
  if (maxSamples <=? sampleCount st)%nat then st else body.

(** First loop: the priority patterns. *)
Definition priorityStep (o : Obj) (priorityPattern : RegExp)
    (st : Selection) (filePath : string) : Selection :=
  unlessFull st
    (let fileName := Js.toLowerCase (Js.split_pop filePath) in
     if regexp_test priorityPattern fileName then addSample o st filePath
     else st).

(** Second loop: the main-file patterns. *)
Definition mainStep (o : Obj) (pattern : RegExp)
    (st : Selection) (filePath : string) : Selection :=
  unlessFull st
    (if Js.str_includes (samples st) (excerptHeader filePath) then st
     else if regexp_test pattern filePath then addSample o st filePath
     else st).

(** Third loop: the source extensions. *)
Definition sourceStep (o : Obj) (sourceExtensions : list string)
    (st : Selection) (filePath : string) : Selection :=
  unlessFull st
    (if Js.str_includes (samples st) (excerptHeader filePath) then st
     else
       let ext := Js.toLowerCase (NodePath.extname filePath) in
       if Js.includes sourceExtensions ext then addSample o st filePath
       else st).

(** The whole of [getSourceCodeSamples(workspaceData)], with its state. *)
Definition selectSamples (workspaceData : ScanResult) : Selection :=
  let o := fileContents workspaceData in
  let st := mkSelection EmptyString 0 [] in
  let mainFilePatterns :=
    getMainFilePatterns (projectType workspaceData)
                        (mainLanguages workspaceData) in
  let priorityFiles :=
    getPriorityFilesForProjectType (projectType workspaceData)
                                   (mainLanguages workspaceData) in
  let st :=
    fold_left
      (fun st priorityPattern =>
         unlessFull st
           (fold_left (priorityStep o priorityPattern) (obj_keys o) st))
      priorityFiles st in
  let st :=
    fold_left
      (fun st pattern =>
         unlessFull st (fold_left (mainStep o pattern) (obj_keys o) st))
      mainFilePatterns st in
  if (sampleCount st <? maxSamples)%nat then
    let sourceExtensions :=
      getSourceFileExtensions (projectType workspaceData)
                              (mainLanguages workspaceData) in
    fold_left (sourceStep o sourceExtensions) (obj_keys o) st
  else st.

Definition getSourceCodeSamples (workspaceData : ScanResult) : string :=
  samples (selectSamples workspaceData).

(** Whether the base name of a key matches one of the priority patterns. *)
Definition matchesPriority (workspaceData : ScanResult) (filePath : string)
    : bool :=
  existsb
    (fun p => regexp_test p (Js.toLowerCase (Js.split_pop filePath)))
    (getPriorityFilesForProjectType (projectType workspaceData)
                                    (mainLanguages workspaceData)).

End Selector.

(** ** Concrete workspaces *)

Module Fixtures.

Definition quoted (s : string) : string :=
  String "034" EmptyString ++ s ++ String "034" EmptyString.

(** A manifest whose only group is [devDependencies], with typescript. *)
Definition manifestDevTypescript : string :=
  "{" ++ quoted "devDependencies" ++ ":{" ++ quoted "typescript" ++ ":" ++
  quoted "^5.0.0" ++ "}}".

(** A manifest whose only group is [dependencies], with typescript. *)
Definition manifestRuntimeTypescript : string :=
  "{" ++ quoted "dependencies" ++ ":{" ++ quoted "typescript" ++ ":" ++
  quoted "^5.0.0" ++ "}}".

(** [JSON.parse] on the two manifests above; on the other texts of the
    workspaces below, none of which is JSON, it throws. *)
Definition JSON_parse (text : string) : option Json :=
  if String.eqb text manifestDevTypescript then
    Some (JObject
            [("devDependencies", JObject [("typescript", JString "^5.0.0")])])
  else if String.eqb text manifestRuntimeTypescript then
    Some (JObject
            [("dependencies", JObject [("typescript", JString "^5.0.0")])])
  else None.

Definition workspacePath : NodePath.Path := ["home"; "dev"; "project"].

(** [package.json] with a typescript dev dependency, and [src/index.ts]. *)
Definition typescriptWorkspace : Dir :=
  Listing
    [ File "package.json" (Returned manifestDevTypescript);
      Directory "src"
        (Listing [ File "index.ts" (Returned "export const answer = 42;") ]) ].

(** typescript among the runtime dependencies only. *)
Definition runtimeTypescriptWorkspace : Dir :=
  Listing [ File "package.json" (Returned manifestRuntimeTypescript) ].

(** Two directories, each with a file of the same name. *)
Definition twinWorkspace : Dir :=
  Listing
    [ Directory "client" (Listing [ File "index.js" (Returned "// client") ]);
      Directory "server" (Listing [ File "index.js" (Returned "// server") ]) ].

(** The markers of two ecosystems, in the two orders a listing can have. *)
Definition nodeThenPython : Dir :=
  Listing [ File "package.json" (Threw "EACCES");
            File "requirements.txt" (Returned "flask") ].

Definition pythonThenNode : Dir :=
  Listing [ File "requirements.txt" (Returned "flask");
            File "package.json" (Threw "EACCES") ].

(** A license only. *)
Definition licenseWorkspace : Dir :=
  Listing [ File "license.txt" (Returned "MIT") ].

(** [n] bytes. *)
Definition bytes (n : N) : string :=
  N.iter n (String "x") EmptyString.

(** A readme one byte over the ceiling of important files. *)
Definition bigReadmeWorkspace : Dir :=
  Listing [ File "readme.md" (Returned (bytes (importantMaxFileSize + 1))) ].

(** A note in Latin-1: the last letter of its word is the single byte
    233, which is no UTF-8. *)
Definition latin1Note : string := "caf" ++ String "233" EmptyString.

Definition latin1Workspace : Dir :=
  Listing [ File "notes.txt" (Returned latin1Note) ].

(** A parsed manifest as a template literal spells it (an object). *)
Definition String_of_Json (j : Json) : string := "[object Object]".

(** A node project with more files than its quota of seventy: the
    manifest and sixty-nine modules, then a component and some notes. *)
Definition numbered (i : nat) : string :=
  "module" ++ String.concat EmptyString (repeat "i" i) ++ ".js".

Definition crowdedEntries : list Entry :=
  File "package.json" (Returned manifestDevTypescript) ::
  map (fun i => File (numbered i) (Returned "export {};")) (seq 0 69).

Definition lateEntries : list Entry :=
  [ File "App.jsx" (Returned "export default null;");
    File "notes.md" (Returned "to do") ].

Definition crowdedWorkspace : Dir :=
  Listing (crowdedEntries ++ lateEntries)%list.

(** The state of the walk of [crowdedWorkspace] when it reaches
    [lateEntries]. *)
Definition atQuota : ScanResult :=
  scanImportantFiles defaultIgnoreDirs defaultIgnoreFiles workspacePath
    (Listing crowdedEntries)
    (identifyProjectType JSON_parse (Listing crowdedEntries) emptyResult) 0.

(** What a scan of some node project could hand to the selector. *)
Definition sampleData : ScanResult :=
  mkScanResult
    [ "README.md"; "util.js"; "index.js"; "App.jsx" ]
    [ "src" ]
    [ ("README.md", Text "# project");
      ("util.js", Text "export const id = x => x;");
      ("index.js", Text "import './util.js';");
      ("App.jsx", Text "export default null;") ]
    node
    [ "javascript" ].

End Fixtures.

(** * Properties of the scanner *)

(** ** Paths, objects and arrays *)

Lemma relative_segments_join (p : NodePath.Path) (name : string) :
  NodePath.relative_segments p (NodePath.join p name) = [name].
Proof.
  unfold NodePath.join.
  induction p as [|s p IH]; simpl; [reflexivity|].
  rewrite String.eqb_refl. exact IH.
Qed.

(** The path the walker records for an entry is the entry's own name,
    whatever the directory it is listed in. *)
Lemma relative_join (p : NodePath.Path) (name : string) :
  NodePath.relative p (NodePath.join p name) = name.
Proof.
  unfold NodePath.relative. rewrite relative_segments_join. reflexivity.
Qed.

Lemma includes_true_iff (l : list string) (x : string) :
  Js.includes l x = true <-> In x l.
Proof.
  unfold Js.includes. rewrite existsb_exists. split.
  - intros [y [Hy Hxy]]. apply String.eqb_eq in Hxy. now subst.
  - intros H. exists x. split; [assumption | apply String.eqb_refl].
Qed.

Lemma obj_keys_set (o : Obj) (k : string) (v : Content) (k' : string) :
  In k' (obj_keys (obj_set o k v)) <-> k' = k \/ In k' (obj_keys o).
Proof.
  induction o as [|[k0 v0] o IH]; simpl.
  - intuition.
  - destruct (String.eqb_spec k0 k) as [->|Hne]; simpl.
    + intuition.
    + rewrite IH. intuition.
Qed.

Lemma obj_set_length (o : Obj) (k : string) (v : Content) :
  List.length (obj_keys (obj_set o k v)) <= S (List.length (obj_keys o)).
Proof.
  induction o as [|[k0 v0] o IH]; simpl; [lia|].
  destruct (String.eqb k0 k); simpl; lia.
Qed.

Lemma obj_set_NoDup (o : Obj) (k : string) (v : Content) :
  NoDup (obj_keys o) -> NoDup (obj_keys (obj_set o k v)).
Proof.
  induction o as [|[k0 v0] o IH]; simpl; intros H.
  - constructor; [intros [] | constructor].
  - inversion H as [|? ? Hnotin Hrest]; subst.
    destruct (String.eqb_spec k0 k) as [->|Hne]; simpl.
    + constructor; assumption.
    + constructor; [|auto].
      intros Hin. apply obj_keys_set in Hin. destruct Hin as [->|Hin]; auto.
Qed.

Lemma obj_get_set (o : Obj) (k : string) (v : Content) :
  obj_get (obj_set o k v) k = Some v.
Proof.
  unfold obj_get.
  induction o as [|[k0 v0] o IH]; simpl.
  - rewrite String.eqb_refl. reflexivity.
  - destruct (String.eqb_spec k0 k) as [->|Hne]; simpl.
    + rewrite String.eqb_refl. reflexivity.
    + apply String.eqb_neq in Hne. rewrite Hne. exact IH.
Qed.

(** ** Induction over a directory tree *)

Definition subdirectory_has (P : Dir -> Prop) (e : Entry) : Prop :=
  match e with
  | Directory _ sub => P sub
  | _ => True
  end.

Section DirInduction.

Variable P : Dir -> Prop.
Hypothesis P_NoListing : forall code, P (NoListing code).
Hypothesis P_Listing :
  forall entries, Forall (subdirectory_has P) entries -> P (Listing entries).

Fixpoint Dir_tree_ind (dir : Dir) : P dir :=
  match dir with
  | NoListing code => P_NoListing code
  | Listing entries =>
      P_Listing entries
        ((fix each (es : list Entry) : Forall (subdirectory_has P) es :=
            match es with
            | [] => Forall_nil _
            | e :: es' =>
                Forall_cons e
                  (match e return subdirectory_has P e with
                   | Directory _ sub => Dir_tree_ind sub
                   | File _ _ => I
                   | Other _ => I
                   end)
                  (each es')
            end) entries)
  end.

End DirInduction.

(** ** The walker, entry by entry *)

(** The body of the walker's loop. *)
Definition visitEntry (dirsToIgnore filesToIgnore : list string)
    (rootPath : NodePath.Path) (depth : nat)
    (sourceExtensions : list string) (maxFiles : nat)
    (result : ScanResult) (entry : Entry) : ScanResult :=
  match entry with
  | Directory dirName sub =>
    let entryPath := NodePath.join rootPath dirName in
    let relativePath := NodePath.relative rootPath entryPath in
    if Js.includes dirsToIgnore dirName then result
    else if isLikelyImportantDirectory dirName then
      scanImportantFiles dirsToIgnore filesToIgnore entryPath sub
        (push_directory result relativePath) (depth + 1)
    else result
  | File fileName data =>
    visitFile filesToIgnore sourceExtensions maxFiles rootPath
      result fileName data
  | Other _ => result
  end.

Lemma scanImportantFiles_eq dirsToIgnore filesToIgnore rootPath dir result depth :
  scanImportantFiles dirsToIgnore filesToIgnore rootPath dir result depth =
  if (maxDepth <? depth)%nat then result
  else
    match dir with
    | NoListing _ => result
    | Listing entries =>
        fold_left
          (visitEntry dirsToIgnore filesToIgnore rootPath depth
             (getSourceFileExtensions (projectType result)
                                      (mainLanguages result))
             (calculateMaxFiles (projectType result)))
          entries result
    end.
Proof. destruct dir; reflexivity. Qed.

(** What every branch of [visitFile] does to the state: nothing, or the
    path is appended to [files], or it is appended and a text is stored
    under it. *)
Lemma visitFile_cases filesToIgnore sourceExtensions maxFiles rootPath r
    fileName data :
  let r' := visitFile filesToIgnore sourceExtensions maxFiles rootPath r
              fileName data in
  r' = r \/ r' = push_file r fileName \/
  exists text, r' = set_content (push_file r fileName) fileName (Text text).
Proof.
  unfold visitFile. rewrite relative_join.
  destruct (Js.includes filesToIgnore fileName); [now left|].
  destruct (maxFiles <=? _)%nat.
  { destruct (isLikelyImportantFile _); [right; now left | now left]. }
  destruct (isLikelyImportantFile _).
  - destruct (_ || _ || _ || _); [|right; now left].
    destruct data; [right; right; eexists; reflexivity | right; now left].
  - destruct (Js.includes sourceExtensions _); [|now left].
    destruct data; [right; right; eexists; reflexivity | right; now left].
Qed.

(** *** A rule for the invariants of the walk *)

Section WalkInvariant.

Variable t : ProjectType.
Variable l : list string.
Variable J : ScanResult -> Prop.

Hypothesis J_directory : forall r p, J r -> J (push_directory r p).
Hypothesis J_file :
  forall filesToIgnore rootPath r fileName data,
    projectType r = t -> mainLanguages r = l -> J r ->
    J (visitFile filesToIgnore (getSourceFileExtensions t l)
         (calculateMaxFiles t) rootPath r fileName data).

Definition Keeps (r : ScanResult) : Prop :=
  projectType r = t /\ mainLanguages r = l /\ J r.

Lemma visitFile_keeps filesToIgnore rootPath r fileName data :
  Keeps r ->
  Keeps (visitFile filesToIgnore (getSourceFileExtensions t l)
           (calculateMaxFiles t) rootPath r fileName data).
Proof.
  intros (Ht & Hl & HJ). unfold Keeps.
  split; [|split]; [| |now apply J_file].
  - destruct (visitFile_cases filesToIgnore (getSourceFileExtensions t l)
                (calculateMaxFiles t) rootPath r fileName data)
      as [E|[E|[text E]]]; rewrite E; assumption.
  - destruct (visitFile_cases filesToIgnore (getSourceFileExtensions t l)
                (calculateMaxFiles t) rootPath r fileName data)
      as [E|[E|[text E]]]; rewrite E; assumption.
Qed.

Lemma scanImportantFiles_keeps dir :
  forall dirsToIgnore filesToIgnore rootPath r depth,
    Keeps r ->
    Keeps (scanImportantFiles dirsToIgnore filesToIgnore rootPath dir r depth).
Proof.
  induction dir as [code|entries IH] using Dir_tree_ind;
    intros dirsToIgnore filesToIgnore rootPath r depth HK;
    rewrite scanImportantFiles_eq;
    destruct (maxDepth <? depth)%nat; try assumption.
  destruct HK as (Ht & Hl & HJ). rewrite Ht, Hl.
  assert (HK : Keeps r) by (repeat split; assumption).
  clear Ht Hl HJ. revert r HK.
  induction IH as [|e es He Hes IHes]; intros r HK; simpl; [assumption|].
  apply IHes.
  destruct e as [fileName data|dirName sub|name]; simpl.
  - now apply visitFile_keeps.
  - destruct (Js.includes dirsToIgnore dirName); [assumption|].
    destruct (isLikelyImportantDirectory dirName); [|assumption].
    apply He. destruct HK as (Ht & Hl & HJ).
    repeat split; try assumption. now apply J_directory.
  - assumption.
Qed.

End WalkInvariant.

(** ** The classifier *)

(** The keys the classifier writes, whatever the names of the files it
    read them from. *)
Definition canonicalKeys : list string :=
  [ "package.json"; "requirements.txt"; "README.md"; "LICENSE" ].

(** The marker table: the project type a file name stands for. *)
Definition markerType (name : string) : option ProjectType :=
  let fileName := Js.toLowerCase name in
  if String.eqb fileName "package.json" then Some node
  else if String.eqb fileName "requirements.txt" ||
          String.eqb fileName "setup.py" ||
          String.eqb fileName "pyproject.toml" then Some python
  else if String.eqb fileName "pom.xml" then Some java
  else if String.eqb fileName "cargo.toml" then Some rust
  else if String.eqb fileName "go.mod" then Some go
  else if String.eqb fileName "gemfile" then Some ruby
  else if String.eqb fileName "composer.json" then Some php
  else None.

Definition entryMarker (e : Entry) : option ProjectType :=
  match e with
  | File name _ => markerType name
  | _ => None
  end.

(** A step that leaves the lists and the type alone and writes at most
    one canonical key. *)
Definition writesCanonical (r r' : ScanResult) : Prop :=
  files r' = files r /\ directories r' = directories r /\
  projectType r' = projectType r /\
  (fileContents r' = fileContents r \/
   exists k v, In k canonicalKeys /\
               fileContents r' = obj_set (fileContents r) k v).

Lemma writesCanonical_refl r : writesCanonical r r.
Proof. repeat split; now left. Qed.

Lemma writesCanonical_language r r' lang :
  writesCanonical r r' -> writesCanonical r (push_language r' lang).
Proof. intros H. exact H. Qed.

Lemma writesCanonical_type r r' t :
  writesCanonical (set_projectType r t) r' ->
  files r' = files r /\ directories r' = directories r /\
  projectType r' = t /\
  (fileContents r' = fileContents r \/
   exists k v, In k canonicalKeys /\
               fileContents r' = obj_set (fileContents r) k v).
Proof. intros H. exact H. Qed.

Lemma captureText_writes r key read :
  In key canonicalKeys -> writesCanonical r (captureText r key read).
Proof.
  intros Hkey. destruct read as [text|code]; simpl.
  - repeat split. right. now exists key, (Text text).
  - apply writesCanonical_refl.
Qed.

Section ClassifierProperties.

Variable JSON_parse : string -> option Json.

Lemma readPackageJson_writes entries r :
  writesCanonical r (readPackageJson JSON_parse entries r).
Proof.
  unfold readPackageJson.
  destruct (readFileSync entries "package.json") as [text|code];
    [|apply writesCanonical_refl].
  destruct (JSON_parse text) as [packageJson|]; [|apply writesCanonical_refl].
  assert (Hset : writesCanonical r
                   (set_content r "package.json" (Parsed packageJson))).
  { repeat split. right. exists "package.json", (Parsed packageJson).
    split; [simpl; auto | reflexivity]. }
  destruct packageJson; try exact Hset;
    repeat match goal with
           | |- context [if ?b then _ else _] => destruct b
           end;
    repeat apply writesCanonical_language; exact Hset.
Qed.

(** One entry of the root: the type becomes the marker's, if the entry is
    one; the lists are untouched; at most one canonical key is written. *)
Lemma identifyEntry_spec entries r e :
  let r' := identifyEntry JSON_parse entries r e in
  files r' = files r /\ directories r' = directories r /\
  projectType r' = match entryMarker e with
                   | Some t => t
                   | None => projectType r
                   end /\
  (fileContents r' = fileContents r \/
   exists k v, In k canonicalKeys /\
               fileContents r' = obj_set (fileContents r) k v).
Proof.
  destruct e as [name data|name sub|name]; simpl;
    try (repeat split; now left).
  unfold markerType.
  set (fileName := Js.toLowerCase name).
  destruct (String.eqb fileName "package.json").
  { apply writesCanonical_type with (r := r).
    apply (readPackageJson_writes entries
             (push_language (set_projectType r node) "javascript")). }
  destruct (String.eqb fileName "requirements.txt" ||
            String.eqb fileName "setup.py" ||
            String.eqb fileName "pyproject.toml").
  { destruct (String.eqb fileName "requirements.txt").
    - apply writesCanonical_type with (r := r).
      apply (captureText_writes
               (push_language (set_projectType r python) "python")).
      simpl; auto.
    - repeat split; now left. }
  destruct (String.eqb fileName "pom.xml"); [repeat split; now left|].
  destruct (String.eqb fileName "cargo.toml"); [repeat split; now left|].
  destruct (String.eqb fileName "go.mod"); [repeat split; now left|].
  destruct (String.eqb fileName "gemfile"); [repeat split; now left|].
  destruct (String.eqb fileName "composer.json"); [repeat split; now left|].
  destruct (String.eqb fileName "dockerfile" ||
            String.eqb fileName "docker-compose.yml");
    [repeat split; now left|].
  destruct (String.eqb fileName "readme.md").
  { apply (captureText_writes r). simpl; auto. }
  destruct (Js.startsWith fileName "license").
  { apply (captureText_writes r). simpl; auto 6. }
  repeat split; now left.
Qed.

(** What the classifier hands to the walker. *)
Definition classified (r : ScanResult) : Prop :=
  files r = [] /\ directories r = [] /\
  incl (obj_keys (fileContents r)) canonicalKeys /\
  NoDup (obj_keys (fileContents r)).

Lemma identifyEntry_classified entries r e :
  classified r -> classified (identifyEntry JSON_parse entries r e).
Proof.
  intros (Hf & Hd & Hk & Hn).
  destruct (identifyEntry_spec entries r e) as (Ef & Ed & _ & Ec).
  unfold classified. rewrite Ef, Ed.
  destruct Ec as [Ec|(k & v & Hin & Ec)]; rewrite Ec.
  - repeat split; assumption.
  - repeat split; try assumption.
    + intros k' Hk'. apply obj_keys_set in Hk'.
      destruct Hk' as [->|Hk']; [assumption | now apply Hk].
    + now apply obj_set_NoDup.
Qed.

Lemma identifyProjectType_classified root :
  classified (identifyProjectType JSON_parse root emptyResult).
Proof.
  assert (H0 : classified emptyResult).
  { repeat split; simpl; [intros k [] | constructor]. }
  unfold identifyProjectType.
  destruct (readdirSync root) as [entries|code]; [|exact H0].
  generalize entries at 1. intros all.
  revert H0. generalize emptyResult.
  induction entries as [|e es IH]; intros r Hr; simpl; [assumption|].
  apply IH. now apply identifyEntry_classified.
Qed.

Lemma classified_count r :
  classified r -> List.length (obj_keys (fileContents r)) <= 4.
Proof.
  intros (_ & _ & Hk & Hn).
  apply (NoDup_incl_length Hn Hk).
Qed.

(** The type the classifier reports is that of the last marker of the
    listing. *)
Lemma identify_last_marker all before e after r t :
  entryMarker e = Some t ->
  Forall (fun e' => entryMarker e' = None) after ->
  projectType
    (fold_left (identifyEntry JSON_parse all) (before ++ e :: after)%list r)
  = t.
Proof.
  intros He Hafter. rewrite fold_left_app. simpl.
  set (r1 := fold_left (identifyEntry JSON_parse all) before r).
  assert (H1 : projectType (identifyEntry JSON_parse all r1 e) = t).
  { destruct (identifyEntry_spec all r1 e) as (_ & _ & Et & _).
    rewrite Et, He. reflexivity. }
  revert H1. generalize (identifyEntry JSON_parse all r1 e).
  induction Hafter as [|e' es He' Hes IH]; intros r2 H2; simpl;
    [assumption|].
  apply IH.
  destruct (identifyEntry_spec all r2 e') as (_ & _ & Et & _).
  rewrite Et, He'. assumption.
Qed.

Lemma identify_no_marker all entries r :
  Forall (fun e' => entryMarker e' = None) entries ->
  projectType (fold_left (identifyEntry JSON_parse all) entries r)
  = projectType r.
Proof.
  intros H. revert r.
  induction H as [|e' es He' Hes IH]; intros r; simpl; [reflexivity|].
  rewrite IH.
  destruct (identifyEntry_spec all r e') as (_ & _ & Et & _).
  rewrite Et, He'. reflexivity.
Qed.

End ClassifierProperties.

(** ** Strings *)

Lemma string_length_append (s u : string) :
  String.length (s ++ u) = String.length s + String.length u.
Proof. induction s as [|c s IH]; simpl; [reflexivity | now rewrite IH]. Qed.

Lemma take_length (n : nat) (s : string) :
  n <= String.length s -> String.length (Js.take n s) = n.
Proof.
  revert s. induction n as [|n IH]; intros s H; [reflexivity|].
  destruct s as [|c s]; simpl in *; [lia|].
  rewrite IH; [reflexivity | lia].
Qed.

Lemma take_size (ceiling : N) (bytes : string) :
  (ceiling < size bytes)%N ->
  size (Js.take (N.to_nat ceiling) bytes) = ceiling.
Proof.
  unfold size. intros H. rewrite take_length; lia.
Qed.

(** The truncation law of [readUpTo]. *)
Lemma readUpTo_law (ceiling : N) (bytes : string) :
  ((ceiling < size bytes)%N ->
   readUpTo ceiling bytes =
     Utf8.decode (Js.take (N.to_nat ceiling) bytes) ++ truncationMarker /\
   size (Js.take (N.to_nat ceiling) bytes) = ceiling) /\
  ((size bytes <= ceiling)%N -> readUpTo ceiling bytes = Utf8.decode bytes).
Proof.
  unfold readUpTo. split; intros H.
  - apply N.ltb_lt in H as Hb. rewrite Hb. split; [reflexivity|].
    now apply take_size.
  - destruct (N.ltb_spec ceiling (size bytes)); [lia | reflexivity].
Qed.

Lemma bytes_size (n : N) : size (Fixtures.bytes n) = n.
Proof.
  unfold size, Fixtures.bytes.
  induction n as [|n IH] using N.peano_ind; [reflexivity|].
  rewrite N.iter_succ. simpl String.length. lia.
Qed.

(** Bytes below 128 decode to themselves. *)
Fixpoint isAscii (s : string) : bool :=
  match s with
  | EmptyString => true
  | String b rest => Utf8.within 0 127 (N_of_ascii b) && isAscii rest
  end.

Lemma decode_ascii (s : string) : isAscii s = true -> Utf8.decode s = s.
Proof.
  unfold Utf8.decode.
  induction s as [|b rest IH]; intros H; [reflexivity|].
  cbn [isAscii] in H. apply andb_true_iff in H. destruct H as [Hb Hrest].
  cbn [Utf8.decodeFrom]. rewrite Hb, IH by assumption. reflexivity.
Qed.

Lemma bytes_ascii (n : N) : isAscii (Fixtures.bytes n) = true.
Proof.
  unfold Fixtures.bytes.
  induction n as [|n IH] using N.peano_ind; [reflexivity|].
  rewrite N.iter_succ. cbn [isAscii]. rewrite IH. reflexivity.
Qed.

Lemma marked_differs (ceiling : N) (bytes : string) :
  size bytes = (ceiling + 1)%N ->
  bytes <> Js.take (N.to_nat ceiling) bytes ++ truncationMarker.
Proof.
  intros Hsize Heq.
  assert (Htake : size (Js.take (N.to_nat ceiling) bytes) = ceiling)
    by (apply take_size; lia).
  apply (f_equal String.length) in Heq.
  rewrite string_length_append in Heq.
  unfold size in Hsize, Htake. simpl in Heq. lia.
Qed.

(** ** The scan as a whole *)

(** The walker changes neither the type nor the tags. *)
Lemma scanImportantFiles_frame dirsToIgnore filesToIgnore rootPath dir r depth :
  let r' := scanImportantFiles dirsToIgnore filesToIgnore rootPath dir r depth in
  projectType r' = projectType r /\ mainLanguages r' = mainLanguages r.
Proof.
  destruct (scanImportantFiles_keeps (projectType r) (mainLanguages r)
              (fun _ => True) (fun _ _ _ => I) (fun _ _ _ _ _ _ _ _ => I)
              dir dirsToIgnore filesToIgnore rootPath r depth)
    as (Ht & Hl & _).
  - repeat split.
  - split; assumption.
Qed.

(** Walking a listing is walking its first entries, then the others. *)
Lemma scanImportantFiles_app dirsToIgnore filesToIgnore rootPath
    before after r depth :
  scanImportantFiles dirsToIgnore filesToIgnore rootPath
    (Listing (before ++ after)%list) r depth =
  scanImportantFiles dirsToIgnore filesToIgnore rootPath (Listing after)
    (scanImportantFiles dirsToIgnore filesToIgnore rootPath
       (Listing before) r depth) depth.
Proof.
  destruct (scanImportantFiles_frame dirsToIgnore filesToIgnore rootPath
              (Listing before) r depth) as [Ht Hl].
  rewrite (scanImportantFiles_eq _ _ _ (Listing after)), Ht, Hl.
  rewrite !scanImportantFiles_eq.
  destruct (maxDepth <? depth)%nat; [reflexivity|].
  apply fold_left_app.
Qed.

Lemma visitFile_unreadable filesToIgnore sourceExtensions maxFiles rootPath r
    fileName code :
  let r' := visitFile filesToIgnore sourceExtensions maxFiles rootPath r
              fileName (Threw code) in
  r' = r \/ r' = push_file r fileName.
Proof.
  unfold visitFile. rewrite relative_join.
  repeat match goal with
         | |- context [if ?b then _ else _] => destruct b
         end; auto.
Qed.

(** Below the quota the number of keys grows by one at most; at the quota
    it does not grow. *)
Lemma visitFile_count filesToIgnore sourceExtensions maxFiles rootPath r
    fileName data :
  List.length (obj_keys (fileContents r)) <= maxFiles ->
  List.length
    (obj_keys
       (fileContents
          (visitFile filesToIgnore sourceExtensions maxFiles rootPath r
             fileName data))) <= maxFiles.
Proof.
  intros H. unfold visitFile.
  destruct (Js.includes filesToIgnore fileName); [assumption|].
  destruct (Nat.leb_spec maxFiles (List.length (obj_keys (fileContents r))))
    as [Hfull|Hroom].
  { destruct (isLikelyImportantFile _); assumption. }
  assert (Hset : forall k v,
             List.length (obj_keys (obj_set (fileContents r) k v)) <= maxFiles).
  { intros k v. pose proof (obj_set_length (fileContents r) k v). lia. }
  destruct (isLikelyImportantFile _).
  - destruct (_ || _ || _ || _); [|assumption].
    destruct data; simpl; [apply Hset | assumption].
  - destruct (Js.includes sourceExtensions _); [|assumption].
    destruct data; simpl; [apply Hset | assumption].
Qed.

Lemma scanImportantFiles_count dirsToIgnore filesToIgnore rootPath dir r depth :
  List.length (obj_keys (fileContents r)) <= calculateMaxFiles (projectType r) ->
  List.length
    (obj_keys
       (fileContents
          (scanImportantFiles dirsToIgnore filesToIgnore rootPath dir r depth)))
  <= calculateMaxFiles (projectType r).
Proof.
  intros H.
  apply (scanImportantFiles_keeps (projectType r) (mainLanguages r)
           (fun r' => List.length (obj_keys (fileContents r'))
                      <= calculateMaxFiles (projectType r))).
  - intros r' p Hr'. exact Hr'.
  - intros fI path r' name data _ _ Hr'. now apply visitFile_count.
  - repeat split. assumption.
Qed.

Lemma quota_at_least_base (t : ProjectType) : 50 <= calculateMaxFiles t.
Proof. destruct t; simpl; lia. Qed.

Lemma scanImportantFiles_listed dirsToIgnore filesToIgnore rootPath dir r depth :
  (forall k, In k (obj_keys (fileContents r)) ->
             In k (files r) \/ In k canonicalKeys) ->
  forall k,
    In k (obj_keys
            (fileContents
               (scanImportantFiles dirsToIgnore filesToIgnore rootPath dir
                  r depth))) ->
    In k (files
            (scanImportantFiles dirsToIgnore filesToIgnore rootPath dir
               r depth)) \/ In k canonicalKeys.
Proof.
  intros H.
  apply (scanImportantFiles_keeps (projectType r) (mainLanguages r)
           (fun r' => forall k, In k (obj_keys (fileContents r')) ->
                                In k (files r') \/ In k canonicalKeys)).
  - intros r' p Hr'. exact Hr'.
  - intros fI path r' name data _ _ Hr'.
    destruct (visitFile_cases fI
                (getSourceFileExtensions (projectType r) (mainLanguages r))
                (calculateMaxFiles (projectType r)) path r' name data)
      as [E|[E|[text E]]]; rewrite E; simpl; intros k Hk.
    + now apply Hr'.
    + destruct (Hr' k Hk) as [Hin|Hin]; [left | now right].
      unfold Js.push. apply in_or_app. now left.
    + apply obj_keys_set in Hk. unfold Js.push.
      destruct Hk as [->|Hk].
      * left. apply in_or_app. right. now left.
      * destruct (Hr' k Hk) as [Hin|Hin]; [left | now right].
        apply in_or_app. now left.
  - repeat split. assumption.
Qed.

(** The walk keeps in front what [files] held. *)
Lemma scanImportantFiles_files dirsToIgnore filesToIgnore rootPath dir r depth :
  exists more,
    files (scanImportantFiles dirsToIgnore filesToIgnore rootPath dir r depth)
    = (files r ++ more)%list.
Proof.
  apply (scanImportantFiles_keeps (projectType r) (mainLanguages r)
           (fun r' => exists more, files r' = (files r ++ more)%list)).
  - intros r' p Hr'. exact Hr'.
  - intros fI path r' name data _ _ [more Hr'].
    destruct (visitFile_cases fI
                (getSourceFileExtensions (projectType r) (mainLanguages r))
                (calculateMaxFiles (projectType r)) path r' name data)
      as [E|[E|[text E]]]; rewrite E; simpl; unfold Js.push.
    + now exists more.
    + exists (more ++ [name])%list. now rewrite Hr', app_assoc.
    + exists (more ++ [name])%list. now rewrite Hr', app_assoc.
  - repeat split. exists []. now rewrite app_nil_r.
Qed.

(** At the quota a file that is important and not ignored is appended to
    [files], and that is all. *)
Lemma visitFile_at_quota filesToIgnore sourceExtensions maxFiles rootPath r
    fileName data :
  Js.includes filesToIgnore fileName = false ->
  maxFiles <= List.length (obj_keys (fileContents r)) ->
  isLikelyImportantFile (NodePath.text (NodePath.join rootPath fileName))
  = true ->
  visitFile filesToIgnore sourceExtensions maxFiles rootPath r fileName data
  = push_file r fileName.
Proof.
  intros Hignored Hfull Himportant.
  unfold visitFile. rewrite relative_join, Hignored, Himportant.
  apply Nat.leb_le in Hfull. now rewrite Hfull.
Qed.

(** Once the quota is reached the walk stores nothing more. *)
Lemma scanImportantFiles_full dirsToIgnore filesToIgnore rootPath dir r depth :
  calculateMaxFiles (projectType r)
  <= List.length (obj_keys (fileContents r)) ->
  fileContents
    (scanImportantFiles dirsToIgnore filesToIgnore rootPath dir r depth)
  = fileContents r.
Proof.
  intros Hfull.
  apply (scanImportantFiles_keeps (projectType r) (mainLanguages r)
           (fun r' => fileContents r' = fileContents r)).
  - intros r' p Hr'. exact Hr'.
  - intros fI path r' name data _ _ Hr'.
    unfold visitFile. rewrite Hr'.
    apply Nat.leb_le in Hfull. rewrite Hfull.
    destruct (Js.includes fI name); [assumption|].
    destruct (isLikelyImportantFile _); assumption.
  - repeat split.
Qed.

(** Walking a listing with one entry more: the walk of the listing, then
    the entry. *)
Lemma scanImportantFiles_snoc dirsToIgnore filesToIgnore rootPath before
    fileName data r depth :
  depth <= maxDepth ->
  scanImportantFiles dirsToIgnore filesToIgnore rootPath
    (Listing (before ++ [File fileName data])%list) r depth =
  visitFile filesToIgnore
    (getSourceFileExtensions (projectType r) (mainLanguages r))
    (calculateMaxFiles (projectType r)) rootPath
    (scanImportantFiles dirsToIgnore filesToIgnore rootPath
       (Listing before) r depth)
    fileName data.
Proof.
  intros Hdepth. rewrite scanImportantFiles_app.
  destruct (scanImportantFiles_frame dirsToIgnore filesToIgnore rootPath
              (Listing before) r depth) as [Ht Hl].
  rewrite (scanImportantFiles_eq _ _ _ (Listing [File fileName data])).
  rewrite Ht, Hl.
  destruct (Nat.ltb_spec maxDepth depth); [lia | reflexivity].
Qed.

(** ** The specification's claims about the scan *)

(** The law of truncation for the bytes of a file and the text stored for
    it under a ceiling. *)
Definition truncationLaw (ceiling : N) (bytes stored : string) : Prop :=
  ((ceiling < size bytes)%N ->
   stored =
     Utf8.decode (Js.take (N.to_nat ceiling) bytes) ++ truncationMarker /\
   size (Js.take (N.to_nat ceiling) bytes) = ceiling) /\
  ((size bytes <= ceiling)%N -> stored = Utf8.decode bytes).

(** Whether the walker reads an important file of this name. *)
Definition readableName (fileName : string) : bool :=
  Js.includes readableExtensions (Js.toLowerCase (NodePath.extname fileName)) ||
  String.eqb (Js.toLowerCase fileName) "dockerfile" ||
  String.eqb (Js.toLowerCase fileName) "makefile" ||
  String.eqb (Js.toLowerCase fileName) "license".

Section Claims.

Variable JSON_parse : string -> option Json.

(** C2, as the code has it.  The scan never fails: the promise of
    [scanWorkspace] always resolves.  When the root cannot be listed (it
    does not exist, or is not a directory) the result is the initial one:
    no files, no directories, no contents, type unknown, no tags.  A file
    that cannot be read leaves at most its name in [files], a directory
    that cannot be listed leaves at most its name in [directories], and in
    both cases the entries that follow are walked from there. *)
Theorem scan_never_fails rootPath root ignoreDirs ignoreFiles :
  (exists r,
     scanWorkspace JSON_parse rootPath root ignoreDirs ignoreFiles
     = Returned r) /\
  (forall code,
     scanWorkspace JSON_parse rootPath (NoListing code) ignoreDirs ignoreFiles
     = Returned emptyResult) /\
  (forall dirsToIgnore filesToIgnore path before name code after r depth,
     let walk entries st :=
       scanImportantFiles dirsToIgnore filesToIgnore path (Listing entries)
         st depth in
     (exists st,
        (st = walk before r \/ st = push_file (walk before r) name) /\
        walk (before ++ File name (Threw code) :: after)%list r
        = walk after st) /\
     (exists st,
        (st = walk before r \/ st = push_directory (walk before r) name) /\
        walk (before ++ Directory name (NoListing code) :: after)%list r
        = walk after st)).
Proof.
  split; [eexists; reflexivity|].
  split.
  { intros code. reflexivity. }
  intros dirsToIgnore filesToIgnore path before name code after r depth walk.
  assert (Hsplit : forall e,
             walk (before ++ e :: after)%list r
             = walk after (walk [e] (walk before r))).
  { intros e. unfold walk.
    rewrite scanImportantFiles_app.
    change (e :: after) with ([e] ++ after)%list.
    now rewrite scanImportantFiles_app. }
  split.
  - rewrite Hsplit. set (st := walk before r).
    assert (H : walk [File name (Threw code)] st = st \/
                walk [File name (Threw code)] st = push_file st name).
    { unfold walk. rewrite scanImportantFiles_eq.
      destruct (maxDepth <? depth)%nat; [now left|]. simpl.
      apply visitFile_unreadable. }
    destruct H as [H|H]; rewrite H;
      [exists st | exists (push_file st name)]; split; auto.
  - rewrite Hsplit. set (st := walk before r).
    assert (H : walk [Directory name (NoListing code)] st = st \/
                walk [Directory name (NoListing code)] st
                = push_directory st name).
    { unfold walk. rewrite scanImportantFiles_eq.
      destruct (maxDepth <? depth)%nat; [now left|]. simpl.
      destruct (Js.includes dirsToIgnore name); [now left|].
      destruct (isLikelyImportantDirectory name); [|now left].
      rewrite relative_join.
      destruct (maxDepth <? depth + 1)%nat; now right. }
    destruct H as [H|H]; rewrite H;
      [exists st | exists (push_directory st name)]; split; auto.
Qed.

(** C3, as the code has it.  The reported type is the type of the marker
    file that comes last in the listing of the root: each marker the
    classifier meets replaces the type set by the markers before it. *)
Theorem projectType_of_last_marker rootPath before name data after
    ignoreDirs ignoreFiles t :
  markerType name = Some t ->
  Forall (fun e => entryMarker e = None) after ->
  exists r,
    scanWorkspace JSON_parse rootPath
      (Listing (before ++ File name data :: after)%list)
      ignoreDirs ignoreFiles = Returned r /\
    projectType r = t.
Proof.
  intros Hmarker Hafter. eexists. split; [reflexivity|].
  match goal with
  | |- projectType (scanImportantFiles ?dI ?fI ?p ?d ?r ?n) = _ =>
      destruct (scanImportantFiles_frame dI fI p d r n) as [Ht _]
  end.
  rewrite Ht. unfold identifyProjectType. simpl readdirSync. cbv iota.
  now apply identify_last_marker.
Qed.

(** C4, as the code has it.  Every key of [contents] is a path of
    [files] or one of the four keys of the classifier: [package.json],
    [requirements.txt], [README.md], [LICENSE]. *)
Theorem contents_keys_listed_or_canonical rootPath root ignoreDirs ignoreFiles :
  exists r,
    scanWorkspace JSON_parse rootPath root ignoreDirs ignoreFiles
    = Returned r /\
    forall k, In k (obj_keys (fileContents r)) ->
              In k (files r) \/ In k canonicalKeys.
Proof.
  eexists. split; [reflexivity|].
  apply scanImportantFiles_listed.
  intros k Hk. right.
  destruct (identifyProjectType_classified JSON_parse root)
    as (_ & _ & Hincl & _).
  now apply Hincl.
Qed.

(** C6.  The number of keys of [contents] never exceeds
    [calculateMaxFiles projectType], which is fifty plus a bonus that is
    largest for node.  The bound holds of the result.  It holds when the
    walk of a directory ends if it held when that walk began, so it holds
    in every state the walk passes through (such a state is where the walk
    of the listings cut after the current entry ends).  Once the bound is
    reached the walk of any directory stores nothing more.  And when the
    walk of a listing meets, at the bound, a file that is important and
    not ignored, it appends the file to [files] and walks on from there:
    the file is in [files] when the walk of the listing ends, and
    [contents] is then what it was when the file was met. *)
Theorem contents_within_quota rootPath root ignoreDirs ignoreFiles :
  (exists r,
     scanWorkspace JSON_parse rootPath root ignoreDirs ignoreFiles
     = Returned r /\
     List.length (obj_keys (fileContents r))
     <= calculateMaxFiles (projectType r)) /\
  (forall dirsToIgnore filesToIgnore path dir r depth,
     List.length (obj_keys (fileContents r))
     <= calculateMaxFiles (projectType r) ->
     let r' := scanImportantFiles dirsToIgnore filesToIgnore path dir r depth in
     projectType r' = projectType r /\
     List.length (obj_keys (fileContents r'))
     <= calculateMaxFiles (projectType r')) /\
  (forall dirsToIgnore filesToIgnore path dir r depth,
     calculateMaxFiles (projectType r)
     <= List.length (obj_keys (fileContents r)) ->
     fileContents
       (scanImportantFiles dirsToIgnore filesToIgnore path dir r depth)
     = fileContents r) /\
  (forall dirsToIgnore filesToIgnore path before fileName data after r depth,
     depth <= maxDepth ->
     let walk entries st :=
       scanImportantFiles dirsToIgnore filesToIgnore path (Listing entries)
         st depth in
     let st := walk before r in
     let st' := walk (before ++ File fileName data :: after)%list r in
     Js.includes filesToIgnore fileName = false ->
     calculateMaxFiles (projectType r)
     <= List.length (obj_keys (fileContents st)) ->
     isLikelyImportantFile (NodePath.text (NodePath.join path fileName))
     = true ->
     st' = walk after (push_file st fileName) /\
     (exists later, files st' = (files st ++ fileName :: later)%list) /\
     fileContents st' = fileContents st) /\
  (forall filesToIgnore sourceExtensions path r fileName data,
     Js.includes filesToIgnore fileName = false ->
     calculateMaxFiles (projectType r)
     <= List.length (obj_keys (fileContents r)) ->
     isLikelyImportantFile (NodePath.text (NodePath.join path fileName))
     = true ->
     let r' := visitFile filesToIgnore sourceExtensions
                 (calculateMaxFiles (projectType r)) path r fileName data in
     files r' = (files r ++ [fileName])%list /\
     fileContents r' = fileContents r) /\
  (forall t, 50 <= calculateMaxFiles t /\
             calculateMaxFiles t <= calculateMaxFiles node).
Proof.
  assert (Hwalk : forall dirsToIgnore filesToIgnore path dir r depth,
     List.length (obj_keys (fileContents r))
     <= calculateMaxFiles (projectType r) ->
     let r' := scanImportantFiles dirsToIgnore filesToIgnore path dir r depth in
     projectType r' = projectType r /\
     List.length (obj_keys (fileContents r'))
     <= calculateMaxFiles (projectType r')).
  { intros dI fI path dir r depth H r'.
    destruct (scanImportantFiles_frame dI fI path dir r depth) as [Ht _].
    split; [exact Ht|]. subst r'. rewrite Ht.
    now apply scanImportantFiles_count. }
  split; [|split; [exact Hwalk|split; [|split; [|split]]]].
  - eexists. split; [reflexivity|].
    apply Hwalk.
    pose proof (classified_count _
                  (identifyProjectType_classified JSON_parse root)) as H4.
    pose proof (quota_at_least_base
                  (projectType (identifyProjectType JSON_parse root emptyResult))).
    lia.
  - intros dI fI path dir r depth Hfull.
    now apply scanImportantFiles_full.
  - intros dI fI path before fileName data after r depth Hdepth
           walk st st' Hignored Hfull Himportant.
    destruct (scanImportantFiles_frame dI fI path (Listing before) r depth)
      as [Ht Hl]. fold (walk before r) in Ht, Hl. fold st in Ht, Hl.
    assert (Hstep : st' = walk after (push_file st fileName)).
    { subst st' st walk. cbv beta.
      change (File fileName data :: after)
        with ([File fileName data] ++ after)%list.
      rewrite app_assoc, scanImportantFiles_app. f_equal.
      rewrite scanImportantFiles_snoc by assumption.
      now apply visitFile_at_quota. }
    split; [exact Hstep|]. rewrite Hstep. split.
    + destruct (scanImportantFiles_files dI fI path (Listing after)
                  (push_file st fileName) depth) as [later Hlater].
      exists later. unfold walk. rewrite Hlater. simpl. unfold Js.push.
      now rewrite <- app_assoc.
    + unfold walk. rewrite scanImportantFiles_full; [reflexivity|].
      simpl. rewrite Ht. exact Hfull.
  - intros fI sE path r fileName data Hignored Hfull Himportant r'.
    subst r'. rewrite visitFile_at_quota by assumption.
    split; reflexivity.
  - intros t. destruct t; simpl; lia.
Qed.

(** C7, as the code has it.  When the walk of a listing meets a file it
    reads (not ignored, quota not reached, bytes readable), the text that
    stands under the file's path once the file is visited follows the law
    of truncation: over the ceiling, the UTF-8 decoding of the file's
    leading ceiling-many bytes, then the marker; at or below the ceiling,
    the UTF-8 decoding of the whole file.  The ceiling is that of
    important files when the file is important and its name is one the
    walker reads, that of source files when it is not important and its
    extension is a source extension; the file is stored whatever its size.
    Bytes below 128 decode to themselves. *)
Theorem walker_truncation_law dirsToIgnore filesToIgnore path before
    fileName bytes r depth :
  depth <= maxDepth ->
  let walk entries :=
    scanImportantFiles dirsToIgnore filesToIgnore path (Listing entries)
      r depth in
  let st := walk before in
  let st' := walk (before ++ [File fileName (Returned bytes)])%list in
  let important :=
    isLikelyImportantFile (NodePath.text (NodePath.join path fileName)) in
  Js.includes filesToIgnore fileName = false ->
  List.length (obj_keys (fileContents st))
  < calculateMaxFiles (projectType r) ->
  (important = true -> readableName fileName = true ->
   exists stored,
     obj_get (fileContents st') fileName = Some (Text stored) /\
     truncationLaw importantMaxFileSize bytes stored) /\
  (important = false ->
   Js.includes
     (getSourceFileExtensions (projectType r) (mainLanguages r))
     (Js.toLowerCase (NodePath.extname fileName)) = true ->
   exists stored,
     obj_get (fileContents st') fileName = Some (Text stored) /\
     truncationLaw sourceMaxFileSize bytes stored) /\
  (forall text, isAscii text = true -> Utf8.decode text = text).
Proof.
  intros Hdepth walk st st' important Hignored Hroom.
  subst st' important. unfold walk.
  rewrite scanImportantFiles_snoc by assumption.
  fold (walk before). fold st.
  unfold visitFile. rewrite relative_join, Hignored.
  destruct (Nat.leb_spec (calculateMaxFiles (projectType r))
              (List.length (obj_keys (fileContents st))))
    as [Hfull|_]; [lia|].
  split; [|split].
  - intros Himportant Hreadable. rewrite Himportant.
    unfold readableName in Hreadable. rewrite Hreadable.
    exists (readUpTo importantMaxFileSize bytes). split.
    + simpl. apply obj_get_set.
    + apply readUpTo_law.
  - intros Himportant Hsource. rewrite Himportant, Hsource.
    exists (readUpTo sourceMaxFileSize bytes). split.
    + simpl. apply obj_get_set.
    + apply readUpTo_law.
  - exact decode_ascii.
Qed.

(** C10.  At the quota a file that is not important but has a source
    extension leaves the state as it is: it is not appended to [files] and
    nothing is stored for it (whereas an important file is appended, see
    [contents_within_quota]). *)
Theorem source_file_skipped_at_quota filesToIgnore path r fileName data :
  calculateMaxFiles (projectType r)
  <= List.length (obj_keys (fileContents r)) ->
  isLikelyImportantFile (NodePath.text (NodePath.join path fileName))
  = false ->
  Js.includes
    (getSourceFileExtensions (projectType r) (mainLanguages r))
    (Js.toLowerCase (NodePath.extname fileName)) = true ->
  visitFile filesToIgnore
    (getSourceFileExtensions (projectType r) (mainLanguages r))
    (calculateMaxFiles (projectType r)) path r fileName data = r.
Proof.
  intros Hfull Himportant _. unfold visitFile.
  rewrite Himportant. apply Nat.leb_le in Hfull. rewrite Hfull.
  destruct (Js.includes filesToIgnore fileName); reflexivity.
Qed.

End Claims.

(** ** The claims on concrete workspaces *)

Lemma classifier_keeps_readme (text : string) :
  exists r,
    scanWorkspace Fixtures.JSON_parse Fixtures.workspacePath
      (Listing [ File "readme.md" (Returned text) ]) [] [] = Returned r /\
    obj_get (fileContents r) "README.md" = Some (Text (Utf8.decode text)).
Proof.
  eexists. split; [reflexivity|].
  cbv -[readUpTo Utf8.decode]. reflexivity.
Qed.

(** C1 on its scenario.  The type is node, typescript is among the tags
    and [src] among the directories, but the file is recorded as
    [index.ts], the name under which its own directory lists it:
    [src/index.ts] is not in [files]. *)
Theorem typescript_workspace_basenames :
  exists r,
    scanWorkspace Fixtures.JSON_parse Fixtures.workspacePath
      Fixtures.typescriptWorkspace [] [] = Returned r /\
    projectType r = node /\
    In "typescript" (mainLanguages r) /\
    In "src" (directories r) /\
    files r = [ "package.json"; "index.ts" ] /\
    ~ In "src/index.ts" (files r).
Proof.
  eexists. split; [reflexivity|]. vm_compute.
  repeat split; auto.
  intros [H|[H|[]]]; discriminate.
Qed.

(** C2 as stated fails: for a root that does not exist, and for one that
    is not a directory, the scan returns the initial result. *)
Lemma missing_root_returns_empty :
  scanWorkspace Fixtures.JSON_parse Fixtures.workspacePath
    (NoListing "ENOENT") [] [] = Returned emptyResult /\
  scanWorkspace Fixtures.JSON_parse Fixtures.workspacePath
    (NoListing "ENOTDIR") [] [] = Returned emptyResult /\
  Returned emptyResult <> @Threw ScanResult "ENOENT" /\
  Returned emptyResult <> @Threw ScanResult "ENOTDIR".
Proof. repeat split; try reflexivity; discriminate. Qed.

(** C3 as stated fails: with the markers of node and of python both in
    the root, the type is python when [requirements.txt] is listed last
    and node when [package.json] is. *)
Lemma marker_listing_order :
  (exists r,
     scanWorkspace Fixtures.JSON_parse Fixtures.workspacePath
       Fixtures.nodeThenPython [] [] = Returned r /\
     projectType r = python) /\
  (exists r,
     scanWorkspace Fixtures.JSON_parse Fixtures.workspacePath
       Fixtures.pythonThenNode [] [] = Returned r /\
     projectType r = node).
Proof. split; eexists; split; reflexivity. Qed.

Lemma projectType_of_last_marker_witness :
  markerType "requirements.txt" = Some python /\
  Forall (fun e => entryMarker e = None) [] /\
  exists r,
    scanWorkspace Fixtures.JSON_parse Fixtures.workspacePath
      Fixtures.nodeThenPython [] [] = Returned r /\
    projectType r = python.
Proof.
  split; [reflexivity|]. split; [constructor|].
  exact (projectType_of_last_marker Fixtures.JSON_parse
           Fixtures.workspacePath [ File "package.json" (Threw "EACCES") ]
           "requirements.txt" (Returned "flask") [] [] [] python
           eq_refl (Forall_nil _)).
Defined.

(** C4 as stated fails: a license in the root is stored under the key
    [LICENSE], which is no path of [files] and neither the key of a
    manifest nor that of the readme. *)
Lemma license_key_unlisted :
  exists r,
    scanWorkspace Fixtures.JSON_parse Fixtures.workspacePath
      Fixtures.licenseWorkspace [] [] = Returned r /\
    In "LICENSE" (obj_keys (fileContents r)) /\
    ~ In "LICENSE" (files r) /\
    ~ In "LICENSE" [ "package.json"; "requirements.txt"; "README.md" ].
Proof.
  eexists. split; [reflexivity|]. vm_compute.
  split; [auto|].
  split; intros H; repeat (destruct H as [H|H]; try discriminate); exact H.
Qed.

(** C5 on two directories that each hold an [index.js]: the name is
    recorded twice. *)
Theorem twin_basenames_repeat :
  exists r,
    scanWorkspace Fixtures.JSON_parse Fixtures.workspacePath
      Fixtures.twinWorkspace [] [] = Returned r /\
    files r = [ "index.js"; "index.js" ] /\
    ~ NoDup (files r).
Proof.
  eexists. split; [reflexivity|]. vm_compute.
  split; [reflexivity|].
  intros H. inversion H as [|x l Hnotin _]. apply Hnotin. now left.
Qed.

Lemma contents_within_quota_witness :
  0 <= maxDepth /\
  Js.includes defaultIgnoreFiles "notes.md" = false /\
  calculateMaxFiles
    (projectType
       (identifyProjectType Fixtures.JSON_parse
          (Listing Fixtures.crowdedEntries) emptyResult))
  <= List.length
       (obj_keys
          (fileContents
             (scanImportantFiles defaultIgnoreDirs defaultIgnoreFiles
                Fixtures.workspacePath (Listing Fixtures.crowdedEntries)
                (identifyProjectType Fixtures.JSON_parse
                   (Listing Fixtures.crowdedEntries) emptyResult) 0))) /\
  isLikelyImportantFile
    (NodePath.text (NodePath.join Fixtures.workspacePath "notes.md")) = true /\
  (exists later,
     files
       (scanImportantFiles defaultIgnoreDirs defaultIgnoreFiles
          Fixtures.workspacePath
          (Listing
             (Fixtures.crowdedEntries ++
              File "notes.md" (Returned "to do") ::
              [ File "App.jsx" (Returned "export default null;") ])%list)
          (identifyProjectType Fixtures.JSON_parse
             (Listing Fixtures.crowdedEntries) emptyResult) 0)
     = (files
          (scanImportantFiles defaultIgnoreDirs defaultIgnoreFiles
             Fixtures.workspacePath (Listing Fixtures.crowdedEntries)
             (identifyProjectType Fixtures.JSON_parse
                (Listing Fixtures.crowdedEntries) emptyResult) 0)
        ++ "notes.md" :: later)%list) /\
  fileContents
    (scanImportantFiles defaultIgnoreDirs defaultIgnoreFiles
       Fixtures.workspacePath
       (Listing
          (Fixtures.crowdedEntries ++
           File "notes.md" (Returned "to do") ::
           [ File "App.jsx" (Returned "export default null;") ])%list)
       (identifyProjectType Fixtures.JSON_parse
          (Listing Fixtures.crowdedEntries) emptyResult) 0)
  = fileContents
      (scanImportantFiles defaultIgnoreDirs defaultIgnoreFiles
         Fixtures.workspacePath (Listing Fixtures.crowdedEntries)
         (identifyProjectType Fixtures.JSON_parse
            (Listing Fixtures.crowdedEntries) emptyResult) 0).
Proof.
  assert (H0 : 0 <= maxDepth) by apply Nat.le_0_l.
  assert (H1 : Js.includes defaultIgnoreFiles "notes.md" = false)
    by reflexivity.
  assert (H2 : calculateMaxFiles
                 (projectType
                    (identifyProjectType Fixtures.JSON_parse
                       (Listing Fixtures.crowdedEntries) emptyResult))
               <= List.length
                    (obj_keys
                       (fileContents
                          (scanImportantFiles defaultIgnoreDirs
                             defaultIgnoreFiles Fixtures.workspacePath
                             (Listing Fixtures.crowdedEntries)
                             (identifyProjectType Fixtures.JSON_parse
                                (Listing Fixtures.crowdedEntries)
                                emptyResult) 0))))
    by (vm_compute; apply Nat.le_refl).
  assert (H3 : isLikelyImportantFile
                 (NodePath.text (NodePath.join Fixtures.workspacePath "notes.md"))
               = true) by reflexivity.
  split; [exact H0|]. split; [exact H1|]. split; [exact H2|].
  split; [exact H3|].
  destruct (contents_within_quota Fixtures.JSON_parse Fixtures.workspacePath
              Fixtures.crowdedWorkspace [] []) as (_ & _ & _ & Hmet & _).
  destruct (Hmet defaultIgnoreDirs defaultIgnoreFiles Fixtures.workspacePath
              Fixtures.crowdedEntries "notes.md" (Returned "to do")
              [ File "App.jsx" (Returned "export default null;") ]
              (identifyProjectType Fixtures.JSON_parse
                 (Listing Fixtures.crowdedEntries) emptyResult)
              0 H0 H1 H2 H3) as (_ & Hfiles & Hcontents).
  split; [exact Hfiles | exact Hcontents].
Defined.

(** C7 as stated fails.  A readme of the root one byte over the ceiling
    is stored whole under [README.md] by the classifier, with no marker.
    And a short note in Latin-1 is stored by the walker with U+FFFD in the
    place of its last letter, not as the bytes of the file. *)
Lemma stored_text_counterexample :
  (exists r,
     scanWorkspace Fixtures.JSON_parse Fixtures.workspacePath
       Fixtures.bigReadmeWorkspace [] [] = Returned r /\
     obj_get (fileContents r) "README.md"
     = Some (Text (Fixtures.bytes (importantMaxFileSize + 1))) /\
     (importantMaxFileSize
      < size (Fixtures.bytes (importantMaxFileSize + 1)))%N /\
     Fixtures.bytes (importantMaxFileSize + 1) <>
     Js.take (N.to_nat importantMaxFileSize)
       (Fixtures.bytes (importantMaxFileSize + 1)) ++ truncationMarker) /\
  (exists r,
     scanWorkspace Fixtures.JSON_parse Fixtures.workspacePath
       Fixtures.latin1Workspace [] [] = Returned r /\
     obj_get (fileContents r) "notes.txt"
     = Some (Text ("caf" ++ Utf8.replacement)) /\
     (size Fixtures.latin1Note <= importantMaxFileSize)%N /\
     "caf" ++ Utf8.replacement <> Fixtures.latin1Note).
Proof.
  split.
  - destruct (classifier_keeps_readme
                (Fixtures.bytes (importantMaxFileSize + 1)))
      as (r & Hr & Hget).
    rewrite decode_ascii in Hget by apply bytes_ascii.
    exists r. split; [exact Hr|]. split; [exact Hget|].
    pose proof (bytes_size (importantMaxFileSize + 1)) as Hsize.
    split; [lia|]. now apply marked_differs.
  - eexists. split; [reflexivity|].
    split; [vm_compute; reflexivity|].
    split; [vm_compute; discriminate | discriminate].
Qed.

Lemma walker_truncation_law_witness :
  0 <= maxDepth /\
  Js.includes defaultIgnoreFiles "notes.md" = false /\
  List.length
    (obj_keys
       (fileContents
          (scanImportantFiles defaultIgnoreDirs defaultIgnoreFiles
             Fixtures.workspacePath (Listing []) emptyResult 0)))
  < calculateMaxFiles (projectType emptyResult) /\
  (importantMaxFileSize
   < size (Fixtures.bytes (importantMaxFileSize + 1)))%N /\
  exists stored,
    obj_get
      (fileContents
         (scanImportantFiles defaultIgnoreDirs defaultIgnoreFiles
            Fixtures.workspacePath
            (Listing
               ([] ++ [ File "notes.md"
                          (Returned (Fixtures.bytes
                                       (importantMaxFileSize + 1))) ])%list)
            emptyResult 0))
      "notes.md" = Some (Text stored) /\
    truncationLaw importantMaxFileSize
      (Fixtures.bytes (importantMaxFileSize + 1)) stored.
Proof.
  assert (H0 : 0 <= maxDepth) by apply Nat.le_0_l.
  assert (H1 : Js.includes defaultIgnoreFiles "notes.md" = false)
    by reflexivity.
  assert (H2 : List.length
                 (obj_keys
                    (fileContents
                       (scanImportantFiles defaultIgnoreDirs
                          defaultIgnoreFiles Fixtures.workspacePath
                          (Listing []) emptyResult 0)))
               < calculateMaxFiles (projectType emptyResult))
    by (vm_compute; apply Nat.lt_0_succ).
  assert (H3 : (importantMaxFileSize
                < size (Fixtures.bytes (importantMaxFileSize + 1)))%N)
    by (rewrite bytes_size; apply N.lt_add_pos_r; reflexivity).
  split; [exact H0|]. split; [exact H1|]. split; [exact H2|].
  split; [exact H3|].
  exact (proj1 (walker_truncation_law defaultIgnoreDirs defaultIgnoreFiles
                  Fixtures.workspacePath []
                  "notes.md" (Fixtures.bytes (importantMaxFileSize + 1))
                  emptyResult 0 H0 H1 H2)
           eq_refl eq_refl).
Defined.

(** The law at a small ceiling, for illustration: six letters cut after
    three; a word whose last letter, two bytes long, is cut in the middle;
    and the same word whole. *)
Example readUpTo_small :
  readUpTo 3 "abcdef" = "abc" ++ truncationMarker /\
  readUpTo 6 "abcdef" = "abcdef" /\
  readUpTo 4 ("caf" ++ String "195" (String "169" EmptyString))
  = "caf" ++ Utf8.replacement ++ truncationMarker /\
  readUpTo 5 ("caf" ++ String "195" (String "169" EmptyString))
  = "caf" ++ String "195" (String "169" EmptyString).
Proof. repeat split; reflexivity. Qed.

(** C9 on a manifest that lists typescript among its runtime dependencies
    and has no dev dependencies: the manifest parses, the type is node,
    and the only tag is javascript. *)
Theorem runtime_typescript_untagged :
  exists r,
    scanWorkspace Fixtures.JSON_parse Fixtures.workspacePath
      Fixtures.runtimeTypescriptWorkspace [] [] = Returned r /\
    Fixtures.JSON_parse Fixtures.manifestRuntimeTypescript
    = Some (JObject
              [("dependencies", JObject [("typescript", JString "^5.0.0")])]) /\
    projectType r = node /\
    mainLanguages r = [ "javascript" ] /\
    ~ In "typescript" (mainLanguages r).
Proof.
  eexists. split; [reflexivity|]. vm_compute.
  repeat split; auto.
  intros [H|[]]; discriminate.
Qed.

Lemma source_file_skipped_at_quota_witness :
  calculateMaxFiles (projectType Fixtures.atQuota)
  <= List.length (obj_keys (fileContents Fixtures.atQuota)) /\
  isLikelyImportantFile
    (NodePath.text (NodePath.join Fixtures.workspacePath "App.jsx")) = false /\
  Js.includes
    (getSourceFileExtensions (projectType Fixtures.atQuota)
                             (mainLanguages Fixtures.atQuota))
    (Js.toLowerCase (NodePath.extname "App.jsx")) = true /\
  visitFile defaultIgnoreFiles
    (getSourceFileExtensions (projectType Fixtures.atQuota)
                             (mainLanguages Fixtures.atQuota))
    (calculateMaxFiles (projectType Fixtures.atQuota))
    Fixtures.workspacePath Fixtures.atQuota "App.jsx"
    (Returned "export default null;")
  = Fixtures.atQuota.
Proof.
  assert (H1 : calculateMaxFiles (projectType Fixtures.atQuota)
               <= List.length (obj_keys (fileContents Fixtures.atQuota)))
    by (vm_compute; lia).
  assert (H2 : isLikelyImportantFile
                 (NodePath.text (NodePath.join Fixtures.workspacePath "App.jsx"))
               = false) by reflexivity.
  assert (H3 : Js.includes
                 (getSourceFileExtensions (projectType Fixtures.atQuota)
                                          (mainLanguages Fixtures.atQuota))
                 (Js.toLowerCase (NodePath.extname "App.jsx")) = true)
    by (vm_compute; reflexivity).
  split; [exact H1|]. split; [exact H2|]. split; [exact H3|].
  exact (source_file_skipped_at_quota defaultIgnoreFiles
           Fixtures.workspacePath Fixtures.atQuota "App.jsx"
           (Returned "export default null;") H1 H2 H3).
Defined.

(** The scan of the crowded workspace: seventy keys, the notes listed but
    not read, the component not listed. *)
Example crowded_scan :
  exists r,
    scanWorkspace Fixtures.JSON_parse Fixtures.workspacePath
      Fixtures.crowdedWorkspace [] [] = Returned r /\
    List.length (obj_keys (fileContents r)) = 70 /\
    In "notes.md" (files r) /\
    obj_get (fileContents r) "notes.md" = None /\
    Js.includes (files r) "App.jsx" = false.
Proof.
  eexists. split; [reflexivity|]. vm_compute.
  repeat split. auto 100.
Qed.

(** * Properties of the sample selector *)

(** ** Searching a text for a header *)

Lemma prefix_nil (s : string) : String.prefix EmptyString s = true.
Proof. destruct s; reflexivity. Qed.

Lemma prefix_append (t u : string) : String.prefix t (t ++ u) = true.
Proof.
  induction t as [|c t IH]; simpl; [apply prefix_nil|].
  destruct (ascii_dec c c) as [_|Hne]; [exact IH | now elim Hne].
Qed.

Lemma prefix_append_r (t s u : string) :
  String.prefix t s = true -> String.prefix t (s ++ u) = true.
Proof.
  revert t. induction s as [|c s IH]; intros t H.
  - destruct t; [apply prefix_nil | discriminate].
  - destruct t as [|d t]; [reflexivity|]. simpl in *.
    destruct (ascii_dec d c); [now apply IH | discriminate].
Qed.

Lemma str_includes_prefix (s t : string) :
  String.prefix t s = true -> Js.str_includes s t = true.
Proof. intros H. destruct s; simpl in *; rewrite H; reflexivity. Qed.

Lemma str_includes_append_l (s t u : string) :
  Js.str_includes s t = true -> Js.str_includes (s ++ u) t = true.
Proof.
  induction s as [|c s IH]; intros H.
  - simpl in H. rewrite orb_false_r in H.
    apply str_includes_prefix. now apply (prefix_append_r t EmptyString u).
  - simpl in H. apply orb_true_iff in H.
    change (Js.str_includes (String c (s ++ u)) t = true). simpl.
    apply orb_true_iff. destruct H as [H|H].
    + left. now apply (prefix_append_r t (String c s) u).
    + right. now apply IH.
Qed.

Lemma str_includes_append_r (s t u : string) :
  Js.str_includes u t = true -> Js.str_includes (s ++ u) t = true.
Proof.
  intros H. induction s as [|c s IH]; [exact H|].
  change (Js.str_includes (String c (s ++ u)) t = true). simpl.
  rewrite IH. apply orb_true_r.
Qed.

(** ** The states of the selection *)

Lemma firstn_NoDup {A : Type} (n : nat) (l : list A) :
  NoDup l -> NoDup (firstn n l).
Proof.
  intros H. rewrite <- (firstn_skipn n l) in H.
  now apply NoDup_app_remove_r in H.
Qed.

Lemma firstn_incl {A : Type} (n : nat) (l : list A) (x : A) :
  In x (firstn n l) -> In x l.
Proof.
  intros H. rewrite <- (firstn_skipn n l). apply in_or_app. now left.
Qed.

Lemma fold_left_keeps {A S : Type} (P : S -> Prop) (f : S -> A -> S)
    (l : list A) :
  (forall st a, In a l -> P st -> P (f st a)) ->
  forall st, P st -> P (fold_left f l st).
Proof.
  induction l as [|a l IH]; intros Hf st Hst; simpl; [assumption|].
  apply IH.
  - intros st' a' Ha'. apply Hf. now right.
  - apply Hf; [now left | assumption].
Qed.

(** Two anchored patterns that spell no common word match no common
    name. *)
Definition disjointWords (p q : RegExp) : bool :=
  anchored p && anchored q &&
  forallb (fun w => negb (Js.includes (words q) w)) (words p).

Fixpoint exclusiveb (ps : list RegExp) : bool :=
  match ps with
  | [] => true
  | p :: ps' => forallb (disjointWords p) ps' && exclusiveb ps'
  end.

Definition exclusive (p q : RegExp) : Prop :=
  forall s, regexp_test p s = true -> regexp_test q s = true -> False.

Lemma anchored_test (p : RegExp) (s : string) :
  anchored p = true ->
  regexp_test p s = true -> In (Js.toLowerCase s) (words p).
Proof.
  intros Ha H. unfold regexp_test in H. rewrite Ha in H.
  apply existsb_exists in H. destruct H as [w [Hw He]].
  apply String.eqb_eq in He. now subst.
Qed.

Lemma disjointWords_sound (p q : RegExp) :
  disjointWords p q = true -> exclusive p q.
Proof.
  unfold disjointWords. intros H s Hp Hq.
  apply andb_true_iff in H. destruct H as [H Hw].
  apply andb_true_iff in H. destruct H as [Hap Haq].
  apply anchored_test in Hp; [|assumption].
  apply anchored_test in Hq; [|assumption].
  rewrite forallb_forall in Hw. specialize (Hw _ Hp).
  apply negb_true_iff in Hw.
  apply includes_true_iff in Hq. congruence.
Qed.

Lemma exclusiveb_sound (ps : list RegExp) :
  exclusiveb ps = true -> ForallOrdPairs exclusive ps.
Proof.
  induction ps as [|p ps IH]; simpl; intros H; [constructor|].
  apply andb_true_iff in H. destruct H as [Hp Hps].
  constructor; [|now apply IH].
  apply Forall_forall. intros q Hq.
  apply disjointWords_sound.
  rewrite forallb_forall in Hp. now apply Hp.
Qed.

(** No name matches two priority patterns of a project type. *)
Lemma priority_patterns_exclusive (t : ProjectType) (l : list string) :
  ForallOrdPairs exclusive (getPriorityFilesForProjectType t l).
Proof.
  apply exclusiveb_sound.
  destruct t; simpl; try reflexivity.
  destruct (Js.includes l "react"); reflexivity.
Qed.

Lemma flat_map_filter_NoDup {A : Type} (m : RegExp -> A -> bool)
    (keys : list A) (ps : list RegExp) :
  NoDup keys ->
  ForallOrdPairs
    (fun p q => forall k, m p k = true -> m q k = true -> False) ps ->
  NoDup (flat_map (fun p => filter (m p) keys) ps).
Proof.
  intros Hkeys Hps.
  induction Hps as [|p ps Hp Hrest IH]; simpl; [constructor|].
  apply NoDup_app; [now apply NoDup_filter | exact IH |].
  intros k Hk Hin.
  apply filter_In in Hk. destruct Hk as [_ Hmp].
  apply in_flat_map in Hin. destruct Hin as [q [Hq Hkq]].
  apply filter_In in Hkq. destruct Hkq as [_ Hmq].
  rewrite Forall_forall in Hp. exact (Hp q Hq k Hmp Hmq).
Qed.

Section SelectorProperties.

Variable String_of_Json : Json -> string.

#[local] Abbreviation add := (addSample String_of_Json).
#[local] Abbreviation byPriority := (priorityStep String_of_Json).
#[local] Abbreviation byMainFile := (mainStep String_of_Json).
#[local] Abbreviation bySource := (sourceStep String_of_Json).

(** [sampleCount] counts the excerpts. *)
Definition counted (st : Selection) : Prop :=
  sampleCount st = List.length (excerpts st).

(** The header of every excerpt taken occurs in [samples]. *)
Definition headersIncluded (st : Selection) : Prop :=
  forall k, In k (excerpts st) ->
            Js.str_includes (samples st) (excerptHeader k) = true.

(** [samples] is the excerpts taken, one after the other. *)
Definition rendered (o : Obj) (st : Selection) : Prop :=
  samples st =
  fold_left
    (fun text k => text ++ excerptText k (contentText String_of_Json o k))
    (excerpts st) EmptyString.

Lemma addSample_headers o st k :
  headersIncluded st -> headersIncluded (add o st k).
Proof.
  intros H k' Hk'. simpl in *. unfold Js.push in Hk'.
  apply in_app_or in Hk'. destruct Hk' as [Hk'|[<-|[]]].
  - apply str_includes_append_l. now apply H.
  - apply str_includes_append_r. apply str_includes_prefix.
    unfold excerptText. apply prefix_append.
Qed.

Lemma addSample_rendered o st k :
  rendered o st -> rendered o (add o st k).
Proof.
  unfold rendered. intros H. simpl. unfold Js.push.
  rewrite fold_left_app. simpl. now rewrite H.
Qed.

(** Each step of the three loops leaves the state or adds its path. *)
Definition stepOf (o : Obj) (f : Selection -> string -> Selection) : Prop :=
  forall st k, f st k = st \/ f st k = add o st k.

Lemma priorityStep_stepOf o p : stepOf o (byPriority o p).
Proof.
  intros st k. unfold priorityStep, unlessFull.
  destruct (maxSamples <=? sampleCount st)%nat; [now left|].
  destruct (regexp_test p _); [now right | now left].
Qed.

Lemma mainStep_stepOf o p : stepOf o (byMainFile o p).
Proof.
  intros st k. unfold mainStep, unlessFull.
  destruct (maxSamples <=? sampleCount st)%nat; [now left|].
  destruct (Js.str_includes _ _); [now left|].
  destruct (regexp_test p _); [now right | now left].
Qed.

Lemma sourceStep_stepOf o exts : stepOf o (bySource o exts).
Proof.
  intros st k. unfold sourceStep, unlessFull.
  destruct (maxSamples <=? sampleCount st)%nat; [now left|].
  destruct (Js.str_includes _ _); [now left|].
  destruct (Js.includes exts _); [now right | now left].
Qed.

Lemma stepOf_keeps o f (P : Selection -> Prop) :
  stepOf o f ->
  (forall st k, P st -> P (add o st k)) ->
  forall keys st, P st -> P (fold_left f keys st).
Proof.
  intros Hf Hadd keys. apply fold_left_keeps.
  intros st k _ Hst. destruct (Hf st k) as [E|E]; rewrite E; auto.
Qed.

(** *** The first loop *)

Definition priorityMatch (p : RegExp) (filePath : string) : bool :=
  regexp_test p (Js.toLowerCase (Js.split_pop filePath)).

Lemma priority_keys o p keys : forall st,
  counted st ->
  let st' := fold_left (byPriority o p) keys st in
  counted st' /\
  excerpts st' =
  (excerpts st ++
   firstn (maxSamples - sampleCount st) (filter (priorityMatch p) keys))%list.
Proof.
  induction keys as [|k keys IH]; intros st Hc; cbv zeta;
    cbn [fold_left filter].
  - split; [assumption|]. rewrite firstn_nil, app_nil_r. reflexivity.
  - unfold priorityStep at 2 4, unlessFull.
    fold (priorityMatch p k).
    destruct (Nat.leb_spec maxSamples (sampleCount st)) as [Hfull|Hroom].
    { destruct (IH st Hc) as [Hc' He]. split; [assumption|].
      rewrite He.
      replace (maxSamples - sampleCount st) with 0 by lia.
      reflexivity. }
    destruct (priorityMatch p k) eqn:Hm.
    + assert (Hc1 : counted (add o st k)).
      { unfold counted in *. cbn [sampleCount excerpts addSample].
        unfold Js.push. rewrite length_app. cbn [List.length]. lia. }
      destruct (IH _ Hc1) as [Hc' He]. split; [assumption|].
      rewrite He. cbn [sampleCount excerpts addSample]. unfold Js.push.
      rewrite <- app_assoc. cbn [app].
      replace (maxSamples - sampleCount st)
        with (S (maxSamples - (sampleCount st + 1))) by lia.
      reflexivity.
    + apply IH. assumption.
Qed.

Lemma priority_patterns o ps keys : forall st,
  counted st ->
  let st' :=
    fold_left
      (fun st p => unlessFull st (fold_left (byPriority o p) keys st))
      ps st in
  counted st' /\
  excerpts st' =
  (excerpts st ++
   firstn (maxSamples - sampleCount st)
     (flat_map (fun p => filter (priorityMatch p) keys) ps))%list.
Proof.
  induction ps as [|p ps IH]; intros st Hc; cbv zeta;
    cbn [fold_left flat_map].
  - split; [assumption|]. rewrite firstn_nil, app_nil_r. reflexivity.
  - unfold unlessFull at 2 4.
    destruct (Nat.leb_spec maxSamples (sampleCount st)) as [Hfull|Hroom].
    { destruct (IH st Hc) as [Hc' He]. split; [assumption|].
      rewrite He.
      replace (maxSamples - sampleCount st) with 0 by lia.
      reflexivity. }
    destruct (priority_keys o p keys st Hc) as [Hc1 He1].
    destruct (IH _ Hc1) as [Hc' He]. split; [assumption|].
    rewrite He, He1, <- app_assoc. f_equal.
    rewrite firstn_app. f_equal. f_equal.
    unfold counted in Hc, Hc1. rewrite Hc1, He1, length_app, length_firstn.
    lia.
Qed.

End SelectorProperties.

Section SelectorClaim.

Variable String_of_Json : Json -> string.
Variable workspaceData : ScanResult.

#[local] Abbreviation contents := (fileContents workspaceData).
#[local] Abbreviation keys := (obj_keys (fileContents workspaceData)).
#[local] Abbreviation priorityFiles :=
  (getPriorityFilesForProjectType (projectType workspaceData)
                                  (mainLanguages workspaceData)).

Hypothesis keys_distinct : NoDup keys.

(** The state after the first loop. *)
Definition afterPriority : Selection :=
  fold_left
    (fun st priorityPattern =>
       unlessFull st
         (fold_left (priorityStep String_of_Json contents priorityPattern)
            keys st))
    priorityFiles (mkSelection EmptyString 0 []).

Definition priorityCandidates : list string :=
  flat_map (fun p => filter (priorityMatch p) keys) priorityFiles.

Lemma afterPriority_excerpts :
  counted afterPriority /\
  excerpts afterPriority = firstn maxSamples priorityCandidates.
Proof.
  destruct (priority_patterns String_of_Json contents priorityFiles keys
              (mkSelection EmptyString 0 []) eq_refl) as [Hc He].
  split; [exact Hc|].
  unfold afterPriority. rewrite He. cbn [excerpts sampleCount app].
  now rewrite Nat.sub_0_r.
Qed.

Lemma matchesPriority_candidates k :
  In k priorityCandidates <->
  In k keys /\ matchesPriority workspaceData k = true.
Proof.
  unfold priorityCandidates, matchesPriority.
  rewrite in_flat_map, existsb_exists. split.
  - intros [p [Hp Hk]]. apply filter_In in Hk. destruct Hk as [Hk Hm].
    split; [assumption|]. now exists p.
  - intros [Hk [p [Hp Hm]]]. exists p. split; [assumption|].
    apply filter_In. now split.
Qed.

Lemma priorityCandidates_NoDup : NoDup priorityCandidates.
Proof.
  apply flat_map_filter_NoDup; [exact keys_distinct|].
  pose proof (priority_patterns_exclusive (projectType workspaceData)
                (mainLanguages workspaceData)) as H.
  induction H as [|p ps Hp Hps IH]; constructor; [|exact IH].
  apply Forall_forall. intros q Hq k Hmp Hmq.
  rewrite Forall_forall in Hp. exact (Hp q Hq _ Hmp Hmq).
Qed.

(** What the second and the third loop keep. *)
Definition selected (st : Selection) : Prop :=
  counted st /\
  sampleCount st <= maxSamples /\
  NoDup (excerpts st) /\
  headersIncluded st /\
  rendered String_of_Json contents st /\
  incl (excerpts st) keys /\
  exists later,
    excerpts st = (excerpts afterPriority ++ later)%list /\
    Forall (fun k => matchesPriority workspaceData k = false) later.

Lemma afterPriority_selected : selected afterPriority.
Proof.
  destruct afterPriority_excerpts as [Hc He].
  assert (Hkeep : forall (P : Selection -> Prop),
             (forall st k, P st ->
                           P (addSample String_of_Json contents st k)) ->
             P (mkSelection EmptyString 0 []) -> P afterPriority).
  { intros P Hadd H0. unfold afterPriority.
    apply fold_left_keeps; [|exact H0].
    intros st p _ Hst. unfold unlessFull.
    destruct (maxSamples <=? sampleCount st)%nat; [assumption|].
    apply (stepOf_keeps String_of_Json contents _ P
             (priorityStep_stepOf String_of_Json contents p) Hadd).
    assumption. }
  repeat split.
  - exact Hc.
  - unfold counted in Hc. rewrite Hc, He. apply firstn_le_length.
  - rewrite He. apply firstn_NoDup, priorityCandidates_NoDup.
  - apply Hkeep; [apply addSample_headers | intros k []].
  - apply Hkeep; [apply addSample_rendered | reflexivity].
  - rewrite He. intros k Hk. apply firstn_incl in Hk.
    now apply matchesPriority_candidates in Hk.
  - exists []. split; [now rewrite app_nil_r | constructor].
Qed.

(** Below the cap the first loop has taken every key that matches a
    priority pattern. *)
Lemma afterPriority_complete k :
  sampleCount afterPriority < maxSamples ->
  In k keys -> matchesPriority workspaceData k = true ->
  In k (excerpts afterPriority).
Proof.
  destruct afterPriority_excerpts as [Hc He]. intros Hroom Hk Hm.
  unfold counted in Hc. rewrite Hc, He, length_firstn in Hroom.
  rewrite He, firstn_all2 by lia.
  now apply matchesPriority_candidates.
Qed.

Lemma addSample_selected st k :
  selected st -> In k keys ->
  sampleCount st < maxSamples ->
  Js.str_includes (samples st) (excerptHeader k) = false ->
  selected (addSample String_of_Json contents st k).
Proof.
  intros (Hc & Hcap & Hnd & Hh & Hr & Hin & later & Hlater & Hnon)
         Hk Hroom Hnew.
  assert (Hfresh : ~ In k (excerpts st)).
  { intros Hold. apply Hh in Hold. congruence. }
  unfold selected, counted in *.
  change (excerpts (addSample String_of_Json contents st k))
    with (excerpts st ++ [k])%list.
  change (sampleCount (addSample String_of_Json contents st k))
    with (sampleCount st + 1).
  repeat split.
  - rewrite length_app. cbn [List.length]. lia.
  - lia.
  - apply NoDup_app; [assumption | repeat constructor; intros [] |].
    intros a Ha [<-|[]]. contradiction.
  - now apply addSample_headers.
  - now apply addSample_rendered.
  - intros a Ha. apply in_app_or in Ha. destruct Ha as [Ha|[<-|[]]]; auto.
  - exists (later ++ [k])%list. split.
    + now rewrite Hlater, app_assoc.
    + apply Forall_app. split; [assumption|].
      constructor; [|constructor].
      destruct (matchesPriority workspaceData k) eqn:Hm; [|reflexivity].
      exfalso. apply Hfresh. rewrite Hlater. apply in_or_app. left.
      apply afterPriority_complete; try assumption.
      destruct afterPriority_excerpts as [Hc0 _].
      unfold counted in Hc0. rewrite Hc0.
      rewrite Hc, Hlater, length_app in Hroom. lia.
Qed.

Lemma mainStep_selected p st k :
  selected st -> In k keys ->
  selected (mainStep String_of_Json contents p st k).
Proof.
  intros Hst Hk. unfold mainStep, unlessFull.
  destruct (Nat.leb_spec maxSamples (sampleCount st)); [assumption|].
  destruct (Js.str_includes _ _) eqn:Hinc; [assumption|].
  destruct (regexp_test p k); [|assumption].
  now apply addSample_selected.
Qed.

Lemma sourceStep_selected exts st k :
  selected st -> In k keys ->
  selected (sourceStep String_of_Json contents exts st k).
Proof.
  intros Hst Hk. unfold sourceStep, unlessFull.
  destruct (Nat.leb_spec maxSamples (sampleCount st)); [assumption|].
  destruct (Js.str_includes _ _) eqn:Hinc; [assumption|].
  destruct (Js.includes exts _); [|assumption].
  now apply addSample_selected.
Qed.

Lemma selectSamples_selected :
  selected (selectSamples String_of_Json workspaceData).
Proof.
  unfold selectSamples. cbv zeta. fold afterPriority.
  set (st2 := fold_left _ (getMainFilePatterns _ _) afterPriority).
  assert (H2 : selected st2).
  { subst st2. apply fold_left_keeps; [|apply afterPriority_selected].
    intros st p _ Hst. unfold unlessFull.
    destruct (maxSamples <=? sampleCount st)%nat; [assumption|].
    apply fold_left_keeps; [|assumption].
    intros st' k Hk Hst'. now apply mainStep_selected. }
  destruct (sampleCount st2 <? maxSamples)%nat; [|assumption].
  apply fold_left_keeps; [|assumption].
  intros st' k Hk Hst'. now apply sourceStep_selected.
Qed.

End SelectorClaim.

(** C8.  For a contents mapping (its keys are distinct) and any
    classification, the excerpts of [getSourceCodeSamples] are at most
    [maxSamples], that is ten; no path is taken twice; every path taken is
    a key of the mapping; an excerpt whose base name matches a priority
    pattern stands before every excerpt whose base name matches none; and
    the text returned is these excerpts, in this order. *)
Theorem selectSamples_capped_distinct_prioritized
    (String_of_Json : Json -> string) (workspaceData : ScanResult) :
  NoDup (obj_keys (fileContents workspaceData)) ->
  let st := selectSamples String_of_Json workspaceData in
  List.length (excerpts st) <= maxSamples /\
  maxSamples = 10 /\
  NoDup (excerpts st) /\
  incl (excerpts st) (obj_keys (fileContents workspaceData)) /\
  (forall i j p q,
     nth_error (excerpts st) i = Some p ->
     nth_error (excerpts st) j = Some q ->
     matchesPriority workspaceData p = true ->
     matchesPriority workspaceData q = false ->
     i < j) /\
  getSourceCodeSamples String_of_Json workspaceData =
  fold_left
    (fun text k =>
       text ++
       excerptText k
         (contentText String_of_Json (fileContents workspaceData) k))
    (excerpts st) EmptyString.
Proof.
  intros Hkeys st.
  destruct (selectSamples_selected String_of_Json workspaceData Hkeys)
    as (Hc & Hcap & Hnd & _ & Hr & Hin & later & Hlater & Hnon).
  fold st in Hc, Hcap, Hnd, Hr, Hin, Hlater.
  destruct (afterPriority_selected String_of_Json workspaceData Hkeys)
    as (_ & _ & _ & _ & _ & _ & _).
  destruct (afterPriority_excerpts String_of_Json workspaceData) as [_ He].
  repeat split; try assumption.
  - unfold counted in Hc. lia.
  - intros i j p q Hi Hj Hp Hq.
    set (first := excerpts (afterPriority String_of_Json workspaceData)) in *.
    assert (Hfirst : forall k, In k first ->
                               matchesPriority workspaceData k = true).
    { intros k Hk. subst first. rewrite He in Hk. apply firstn_incl in Hk.
      now apply matchesPriority_candidates in Hk. }
    rewrite Hlater in Hi, Hj.
    destruct (Nat.lt_ge_cases i (List.length first)) as [Hil|Hil].
    + destruct (Nat.lt_ge_cases j (List.length first)) as [Hjl|Hjl]; [|lia].
      rewrite nth_error_app1 in Hj by assumption.
      apply nth_error_In, Hfirst in Hj. congruence.
    + rewrite nth_error_app2 in Hi by assumption.
      apply nth_error_In in Hi.
      rewrite Forall_forall in Hnon. apply Hnon in Hi. congruence.
Qed.

Lemma selectSamples_witness :
  NoDup (obj_keys (fileContents Fixtures.sampleData)) /\
  excerpts (selectSamples Fixtures.String_of_Json Fixtures.sampleData)
  = [ "index.js"; "README.md"; "util.js"; "App.jsx" ] /\
  List.length
    (excerpts (selectSamples Fixtures.String_of_Json Fixtures.sampleData))
  <= maxSamples /\
  NoDup (excerpts (selectSamples Fixtures.String_of_Json Fixtures.sampleData)).
Proof.
  assert (H : NoDup (obj_keys (fileContents Fixtures.sampleData))).
  { cbn. repeat constructor; cbn; intuition discriminate. }
  split; [exact H|]. split; [reflexivity|].
  destruct (selectSamples_capped_distinct_prioritized
              Fixtures.String_of_Json Fixtures.sampleData H)
    as (Hcap & _ & Hnd & _).
  split; [exact Hcap | exact Hnd].
Defined.

(** * Further properties of the scanner *)

(** ** A rule for invariants that depend on the ignore lists *)

(** [visitFile] lists a file only if its name is not ignored. *)
Lemma visitFile_listed filesToIgnore sourceExtensions maxFiles rootPath r
    fileName data :
  let r' := visitFile filesToIgnore sourceExtensions maxFiles rootPath r
              fileName data in
  r' = r \/
  Js.includes filesToIgnore fileName = false /\
  (r' = push_file r fileName \/
   exists text, r' = set_content (push_file r fileName) fileName (Text text)).
Proof.
  unfold visitFile. rewrite relative_join.
  destruct (Js.includes filesToIgnore fileName); [now left|].
  destruct (maxFiles <=? _)%nat.
  { destruct (isLikelyImportantFile _); [right; split; auto | now left]. }
  destruct (isLikelyImportantFile _).
  - destruct (_ || _ || _ || _); [|right; split; auto].
    destruct data; right; split; auto. right. eexists. reflexivity.
  - destruct (Js.includes sourceExtensions _); [|now left].
    destruct data; right; split; auto. right. eexists. reflexivity.
Qed.

Section WalkRule.

Variables dirsToIgnore filesToIgnore : list string.
Variable J : ScanResult -> Prop.

Hypothesis J_directory :
  forall r dirName,
    Js.includes dirsToIgnore dirName = false ->
    isLikelyImportantDirectory dirName = true ->
    J r -> J (push_directory r dirName).
Hypothesis J_file :
  forall r fileName,
    Js.includes filesToIgnore fileName = false ->
    J r -> J (push_file r fileName).
Hypothesis J_content :
  forall r fileName text,
    J r -> J (set_content r fileName (Text text)).

Lemma scanImportantFiles_rule dir :
  forall rootPath r depth,
    J r ->
    J (scanImportantFiles dirsToIgnore filesToIgnore rootPath dir r depth).
Proof.
  induction dir as [code|entries IH] using Dir_tree_ind;
    intros rootPath r depth HJ;
    rewrite scanImportantFiles_eq;
    destruct (maxDepth <? depth)%nat; try assumption.
  generalize (getSourceFileExtensions (projectType r) (mainLanguages r)).
  generalize (calculateMaxFiles (projectType r)).
  intros maxFiles sourceExtensions. revert r HJ.
  induction IH as [|e es He Hes IHes]; intros r HJ; simpl; [assumption|].
  apply IHes.
  destruct e as [fileName data|dirName sub|name]; simpl.
  - destruct (visitFile_listed filesToIgnore sourceExtensions maxFiles
                rootPath r fileName data)
      as [E|[Hok [E|[text E]]]]; rewrite E; auto.
  - destruct (Js.includes dirsToIgnore dirName) eqn:Hignored; [assumption|].
    destruct (isLikelyImportantDirectory dirName) eqn:Himportant;
      [|assumption].
    apply He. rewrite relative_join. now apply J_directory.
  - assumption.
Qed.

End WalkRule.

(** ** What the walk lists *)

Section ListedProperties.

Variable JSON_parse : string -> option Json.

(** X1.  No ignored file name is listed: every path of [files] is outside the
    built-in list of ignored files and outside the caller's. *)
Theorem files_never_ignored rootPath root ignoreDirs ignoreFiles :
  exists r,
    scanWorkspace JSON_parse rootPath root ignoreDirs ignoreFiles
    = Returned r /\
    forall p, In p (files r) ->
              ~ In p defaultIgnoreFiles /\ ~ In p ignoreFiles.
Proof.
  eexists. split; [reflexivity|].
  assert (H : forall p,
             In p (files
                     (scanImportantFiles (defaultIgnoreDirs ++ ignoreDirs)
                        (defaultIgnoreFiles ++ ignoreFiles) rootPath root
                        (identifyProjectType JSON_parse root emptyResult) 0)) ->
             Js.includes (defaultIgnoreFiles ++ ignoreFiles) p = false).
  { apply (scanImportantFiles_rule (defaultIgnoreDirs ++ ignoreDirs)
             (defaultIgnoreFiles ++ ignoreFiles)
             (fun r => forall p, In p (files r) ->
                Js.includes (defaultIgnoreFiles ++ ignoreFiles) p = false)).
    - intros r dirName _ _ Hr. exact Hr.
    - intros r fileName Hok Hr p Hp. simpl in Hp. unfold Js.push in Hp.
      apply in_app_or in Hp. destruct Hp as [Hp|[<-|[]]]; auto.
    - intros r fileName text Hr. exact Hr.
    - destruct (identifyProjectType_classified JSON_parse root) as (Hf & _).
      rewrite Hf. intros p []. }
  intros p Hp. specialize (H p Hp).
  assert (Hnot : ~ In p (defaultIgnoreFiles ++ ignoreFiles)).
  { intros Hin. apply includes_true_iff in Hin. congruence. }
  split; intros Hin; apply Hnot; apply in_or_app; auto.
Qed.

(** X2.  Every path of [directories] is the name of a directory that is not
    ignored, by the built-in list or the caller's, and that the oracle
    holds important. *)
Theorem directories_all_admitted rootPath root ignoreDirs ignoreFiles :
  exists r,
    scanWorkspace JSON_parse rootPath root ignoreDirs ignoreFiles
    = Returned r /\
    forall d, In d (directories r) ->
              ~ In d defaultIgnoreDirs /\ ~ In d ignoreDirs /\
              ~ In (Js.toLowerCase d) unimportantDirs.
Proof.
  eexists. split; [reflexivity|].
  assert (H : forall d,
             In d (directories
                     (scanImportantFiles (defaultIgnoreDirs ++ ignoreDirs)
                        (defaultIgnoreFiles ++ ignoreFiles) rootPath root
                        (identifyProjectType JSON_parse root emptyResult) 0)) ->
             Js.includes (defaultIgnoreDirs ++ ignoreDirs) d = false /\
             isLikelyImportantDirectory d = true).
  { apply (scanImportantFiles_rule (defaultIgnoreDirs ++ ignoreDirs)
             (defaultIgnoreFiles ++ ignoreFiles)
             (fun r => forall d, In d (directories r) ->
                Js.includes (defaultIgnoreDirs ++ ignoreDirs) d = false /\
                isLikelyImportantDirectory d = true)).
    - intros r dirName Hok Himportant Hr d Hd. simpl in Hd.
      unfold Js.push in Hd.
      apply in_app_or in Hd. destruct Hd as [Hd|[<-|[]]]; auto.
    - intros r fileName _ Hr. exact Hr.
    - intros r fileName text Hr. exact Hr.
    - destruct (identifyProjectType_classified JSON_parse root)
        as (_ & Hd & _).
      rewrite Hd. intros d []. }
  intros d Hd. destruct (H d Hd) as [Hok Himportant].
  assert (Hnot : ~ In d (defaultIgnoreDirs ++ ignoreDirs)).
  { intros Hin. apply includes_true_iff in Hin. congruence. }
  split; [|split].
  - intros Hin. apply Hnot. apply in_or_app. auto.
  - intros Hin. apply Hnot. apply in_or_app. auto.
  - intros Hin. apply includes_true_iff in Hin.
    unfold isLikelyImportantDirectory in Himportant.
    rewrite Hin in Himportant. discriminate.
Qed.

(** X3.  The walk only appends: what [files] and [directories] held when it
    began stays in front, and every key of [contents] stays a key. *)
Theorem walk_only_appends dirsToIgnore filesToIgnore rootPath dir r depth :
  let r' := scanImportantFiles dirsToIgnore filesToIgnore rootPath dir r depth in
  (exists more, files r' = (files r ++ more)%list) /\
  (exists more, directories r' = (directories r ++ more)%list) /\
  incl (obj_keys (fileContents r)) (obj_keys (fileContents r')).
Proof.
  apply (scanImportantFiles_rule dirsToIgnore filesToIgnore
           (fun r' =>
              (exists more, files r' = (files r ++ more)%list) /\
              (exists more, directories r' = (directories r ++ more)%list) /\
              incl (obj_keys (fileContents r)) (obj_keys (fileContents r')))).
  - intros r1 dirName _ _ (Hf & [more Hd] & Hk). repeat split; auto.
    exists (more ++ [dirName])%list. simpl. unfold Js.push.
    now rewrite Hd, app_assoc.
  - intros r1 fileName _ ([more Hf] & Hd & Hk). repeat split; auto.
    exists (more ++ [fileName])%list. simpl. unfold Js.push.
    now rewrite Hf, app_assoc.
  - intros r1 fileName text (Hf & Hd & Hk). repeat split; auto.
    intros k Hin. simpl. apply obj_keys_set. right. now apply Hk.
  - repeat split; try (exists []; now rewrite app_nil_r).
    intros k Hk. exact Hk.
Qed.

End ListedProperties.

(** ** How deep the scan looks *)

(** A directory tree with its first [levels] levels of listings kept and
    every directory below them made unreadable. *)
Fixpoint cutBelow (levels : nat) (dir : Dir) {struct dir} : Dir :=
  match levels with
  | 0 => NoListing "ENOENT"
  | S n =>
      match dir with
      | NoListing code => NoListing code
      | Listing entries =>
          Listing
            (map (fun e => match e with
                           | Directory name sub => Directory name (cutBelow n sub)
                           | _ => e
                           end)
                 entries)
      end
  end.

Definition cutEntry (n : nat) (e : Entry) : Entry :=
  match e with
  | Directory name sub => Directory name (cutBelow n sub)
  | _ => e
  end.

Lemma cutBelow_Listing n entries :
  cutBelow (S n) (Listing entries) = Listing (map (cutEntry n) entries).
Proof. reflexivity. Qed.

Lemma scanImportantFiles_cut dir :
  forall dirsToIgnore filesToIgnore rootPath r depth,
    scanImportantFiles dirsToIgnore filesToIgnore rootPath
      (cutBelow (maxDepth + 1 - depth) dir) r depth =
    scanImportantFiles dirsToIgnore filesToIgnore rootPath dir r depth.
Proof.
  induction dir as [code|entries IH] using Dir_tree_ind;
    intros dirsToIgnore filesToIgnore rootPath r depth;
    rewrite (scanImportantFiles_eq _ _ _ (NoListing code)) ||
    rewrite (scanImportantFiles_eq _ _ _ (Listing entries));
    rewrite scanImportantFiles_eq;
    destruct (Nat.ltb_spec maxDepth depth) as [Hdeep|Hshallow];
    try reflexivity.
  - destruct (maxDepth + 1 - depth); reflexivity.
  - replace (maxDepth + 1 - depth) with (S (maxDepth - depth)) by lia.
    rewrite cutBelow_Listing.
    generalize (getSourceFileExtensions (projectType r) (mainLanguages r)).
    generalize (calculateMaxFiles (projectType r)).
    intros maxFiles sourceExtensions. revert r.
    induction IH as [|e es He Hes IHes]; intros r; [reflexivity|].
    cbn [map fold_left]. rewrite IHes. f_equal.
    destruct e as [fileName data|dirName sub|name]; try reflexivity.
    cbn [cutEntry visitEntry].
    destruct (Js.includes dirsToIgnore dirName); [reflexivity|].
    destruct (isLikelyImportantDirectory dirName); [|reflexivity].
    replace (maxDepth - depth) with (maxDepth + 1 - (depth + 1)) by lia.
    apply He.
Qed.

Lemma readFileSync_cut n entries name :
  readFileSync (map (cutEntry n) entries) name = readFileSync entries name.
Proof.
  unfold readFileSync.
  induction entries as [|e es IH]; [reflexivity|]. cbn [map find].
  replace (entry_name (cutEntry n e)) with (entry_name e)
    by (destruct e; reflexivity).
  destruct (String.eqb (entry_name e) name); [|exact IH].
  destruct e; reflexivity.
Qed.

(** What a directory lists; nothing when it cannot be listed. *)
Definition listing (dir : Dir) : list Entry :=
  match dir with
  | NoListing _ => []
  | Listing entries => entries
  end.

(** [holds names fileName dir]: going from [dir] down through the
    directories [names], one inside the other, leads to a directory that
    lists the file [fileName]. *)
Fixpoint holds (names : list string) (fileName : string) (dir : Dir) : Prop :=
  match names with
  | [] => exists data, In (File fileName data) (listing dir)
  | name :: rest =>
      exists sub,
        In (Directory name sub) (listing dir) /\ holds rest fileName sub
  end.

(** The directories [names], each the only entry of the one before it,
    around [inner]. *)
Fixpoint chain (names : list string) (inner : Dir) : Dir :=
  match names with
  | [] => inner
  | name :: rest => Listing [ Directory name (chain rest inner) ]
  end.

(** Whether the walker enters a directory of this name. *)
Definition admitted (dirsToIgnore : list string) (dirName : string) : bool :=
  negb (Js.includes dirsToIgnore dirName) && isLikelyImportantDirectory dirName.

Lemma admitted_true dirsToIgnore dirName :
  admitted dirsToIgnore dirName = true ->
  Js.includes dirsToIgnore dirName = false /\
  isLikelyImportantDirectory dirName = true.
Proof.
  unfold admitted. intros H. apply andb_prop in H. destruct H as [H1 H2].
  split; [|exact H2]. now destruct (Js.includes dirsToIgnore dirName).
Qed.

(** The walk keeps in front what [files] and [directories] held. *)
Lemma scanImportantFiles_grows dirsToIgnore filesToIgnore rootPath dir r depth :
  let r' := scanImportantFiles dirsToIgnore filesToIgnore rootPath dir r depth in
  (exists more, files r' = (files r ++ more)%list) /\
  (exists more, directories r' = (directories r ++ more)%list).
Proof.
  apply (scanImportantFiles_rule dirsToIgnore filesToIgnore
           (fun r' =>
              (exists more, files r' = (files r ++ more)%list) /\
              (exists more, directories r' = (directories r ++ more)%list))).
  - intros r1 dirName _ _ (Hf & [more Hd]). split; [exact Hf|].
    exists (more ++ [dirName])%list. simpl. unfold Js.push.
    now rewrite Hd, app_assoc.
  - intros r1 fileName _ ([more Hf] & Hd). split; [|exact Hd].
    exists (more ++ [fileName])%list. simpl. unfold Js.push.
    now rewrite Hf, app_assoc.
  - intros r1 fileName text H. exact H.
  - split; exists []; now rewrite app_nil_r.
Qed.

Lemma scanImportantFiles_still dirsToIgnore filesToIgnore rootPath dir r depth :
  let r' := scanImportantFiles dirsToIgnore filesToIgnore rootPath dir r depth in
  incl (files r) (files r') /\ incl (directories r) (directories r').
Proof.
  destruct (scanImportantFiles_grows dirsToIgnore filesToIgnore rootPath dir
              r depth) as ([fs Hf] & [ds Hd]).
  cbv zeta. rewrite Hf, Hd.
  split; intros x Hx; apply in_or_app; now left.
Qed.

(** A file that is important and not ignored is appended to [files],
    whether the quota is reached or not. *)
Lemma visitFile_important filesToIgnore sourceExtensions maxFiles rootPath r
    fileName data :
  Js.includes filesToIgnore fileName = false ->
  isLikelyImportantFile (NodePath.text (NodePath.join rootPath fileName))
  = true ->
  In fileName
     (files (visitFile filesToIgnore sourceExtensions maxFiles rootPath r
               fileName data)).
Proof.
  intros Hignored Himportant.
  unfold visitFile. rewrite relative_join, Hignored, Himportant.
  assert (H : In fileName (Js.push (files r) fileName))
    by (unfold Js.push; apply in_or_app; right; now left).
  destruct (maxFiles <=? _)%nat; [exact H|].
  destruct (_ || _ || _ || _); [|exact H].
  destruct data; exact H.
Qed.

(** The walk reaches a file that lies at most [maxDepth] directories below
    the one it starts from. *)
Lemma scanImportantFiles_reaches dirsToIgnore filesToIgnore fileName names :
  forall rootPath dir r depth,
    depth + List.length names <= maxDepth ->
    forallb (admitted dirsToIgnore) names = true ->
    Js.includes filesToIgnore fileName = false ->
    isLikelyImportantFile
      (NodePath.text (NodePath.join (rootPath ++ names)%list fileName)) = true ->
    holds names fileName dir ->
    let r' :=
      scanImportantFiles dirsToIgnore filesToIgnore rootPath dir r depth in
    In fileName (files r') /\ incl names (directories r').
Proof.
  induction names as [|name rest IH];
    intros rootPath dir r depth Hdepth Hadmitted Hignored Himportant Hholds;
    cbv zeta.
  - destruct Hholds as [data Hin].
    destruct dir as [code|entries]; [destruct Hin|].
    cbn [listing] in Hin. apply in_split in Hin.
    destruct Hin as (before & after & ->).
    rewrite app_nil_r in Himportant. cbn [List.length] in Hdepth.
    split; [|intros x []].
    change (File fileName data :: after)
      with ([File fileName data] ++ after)%list.
    rewrite app_assoc, scanImportantFiles_app.
    apply (scanImportantFiles_still dirsToIgnore filesToIgnore rootPath
             (Listing after)).
    rewrite scanImportantFiles_snoc by lia.
    now apply visitFile_important.
  - destruct Hholds as (sub & Hin & Hsub).
    destruct dir as [code|entries]; [destruct Hin|].
    cbn [listing] in Hin. apply in_split in Hin.
    destruct Hin as (before & after & ->).
    cbn [List.length] in Hdepth. cbn [forallb] in Hadmitted.
    apply andb_prop in Hadmitted. destruct Hadmitted as [Hname Hrest].
    apply admitted_true in Hname. destruct Hname as [Hlisted Hlikely].
    change (Directory name sub :: after)
      with ([Directory name sub] ++ after)%list.
    rewrite app_assoc, scanImportantFiles_app.
    rewrite (scanImportantFiles_app _ _ _ before [Directory name sub]).
    set (st := scanImportantFiles dirsToIgnore filesToIgnore rootPath
                 (Listing before) r depth).
    rewrite (scanImportantFiles_eq _ _ _ (Listing [Directory name sub])).
    destruct (Nat.ltb_spec maxDepth depth) as [Hdeep|_]; [lia|].
    cbn [fold_left visitEntry]. rewrite Hlisted, Hlikely, relative_join.
    destruct (IH (NodePath.join rootPath name) sub (push_directory st name)
                (depth + 1)) as [Hfile Hdirs]; try assumption; [lia | |].
    { unfold NodePath.join at 2.
      replace ((rootPath ++ [name]) ++ rest)%list
        with (rootPath ++ name :: rest)%list
        by (now rewrite <- app_assoc).
      exact Himportant. }
    cbv zeta in Hfile, Hdirs.
    set (inside := scanImportantFiles dirsToIgnore filesToIgnore
                     (NodePath.join rootPath name) sub
                     (push_directory st name) (depth + 1)) in *.
    destruct (scanImportantFiles_still dirsToIgnore filesToIgnore
                (NodePath.join rootPath name) sub (push_directory st name)
                (depth + 1)) as [_ Hkept].
    fold inside in Hkept.
    destruct (scanImportantFiles_still dirsToIgnore filesToIgnore rootPath
                (Listing after) inside depth) as [Hf Hd].
    split; [now apply Hf|].
    intros x [<-|Hx]; apply Hd.
    + apply Hkept. simpl. unfold Js.push. apply in_or_app. right. now left.
    + now apply Hdirs.
Qed.

(** The walk of a chain of directories longer than the levels left stops
    at the last level: it records the directories down to there and
    nothing of what lies below. *)
Lemma scanImportantFiles_chain dirsToIgnore filesToIgnore inner names :
  forall rootPath r depth,
    maxDepth < depth + List.length names ->
    forallb (admitted dirsToIgnore) names = true ->
    scanImportantFiles dirsToIgnore filesToIgnore rootPath
      (chain names inner) r depth =
    fold_left push_directory (firstn (maxDepth + 1 - depth) names) r.
Proof.
  induction names as [|name rest IH];
    intros rootPath r depth Hdepth Hadmitted;
    rewrite scanImportantFiles_eq;
    destruct (Nat.ltb_spec maxDepth depth) as [Hdeep|Hshallow];
    cbn [List.length] in Hdepth.
  - now rewrite firstn_nil.
  - lia.
  - replace (maxDepth + 1 - depth) with 0 by lia. reflexivity.
  - cbn [forallb] in Hadmitted.
    apply andb_prop in Hadmitted. destruct Hadmitted as [Hname Hrest].
    apply admitted_true in Hname. destruct Hname as [Hlisted Hlikely].
    cbn [chain fold_left visitEntry].
    rewrite Hlisted, Hlikely, relative_join.
    rewrite IH by (assumption || lia).
    replace (maxDepth + 1 - depth) with (S (maxDepth + 1 - (depth + 1)))
      by lia.
    reflexivity.
Qed.

Lemma fold_push_directory names :
  forall r,
    files (fold_left push_directory names r) = files r /\
    directories (fold_left push_directory names r)
    = (directories r ++ names)%list.
Proof.
  induction names as [|name rest IH]; intros r; cbn [fold_left].
  - now rewrite app_nil_r.
  - destruct (IH (push_directory r name)) as [Hf Hd].
    rewrite Hf, Hd. simpl. unfold Js.push.
    now rewrite <- app_assoc.
Qed.

Section ClassifierReach.

Variable JSON_parse : string -> option Json.

(** The classifier reads the other entries of the root only through
    [readFileSync]. *)
Lemma identifyEntry_ext all all' r e :
  (forall name, readFileSync all name = readFileSync all' name) ->
  identifyEntry JSON_parse all r e = identifyEntry JSON_parse all' r e.
Proof.
  intros H. destruct e as [name data|name sub|name]; try reflexivity.
  unfold identifyEntry, readPackageJson. now rewrite !H.
Qed.

Lemma identifyProjectType_cut n root r :
  identifyProjectType JSON_parse (cutBelow (S n) root) r =
  identifyProjectType JSON_parse root r.
Proof.
  destruct root as [code|entries]; [reflexivity|].
  rewrite cutBelow_Listing. unfold identifyProjectType. cbn [readdirSync].
  assert (H : forall es r0,
             fold_left (identifyEntry JSON_parse (map (cutEntry n) entries))
               (map (cutEntry n) es) r0 =
             fold_left (identifyEntry JSON_parse entries) es r0).
  { induction es as [|e es IH]; intros r0; [reflexivity|].
    cbn [map fold_left]. rewrite IH. f_equal.
    rewrite (identifyEntry_ext _ entries)
      by (intros name; apply readFileSync_cut).
    destruct e; reflexivity. }
  apply H.
Qed.

(** X4.  The scan looks at six levels of listings, the root's and five
    below it, and at no more.  Whatever lies inside a directory of the
    sixth level has no effect on the result: two trees that agree on their
    first six levels scan alike.  A file that lies at most five directories
    below the root is reached: when the directories on the way to it are
    admitted and the file is important and not ignored, the file is in
    [files] and the directories are in [directories].  And five is the
    limit: of a chain of more than five admitted directories, one inside
    the other, the first six are recorded and nothing of what stands below
    them, whatever it is. *)
Theorem scan_depth_bounded rootPath root ignoreDirs ignoreFiles :
  scanWorkspace JSON_parse rootPath (cutBelow 6 root) ignoreDirs ignoreFiles =
  scanWorkspace JSON_parse rootPath root ignoreDirs ignoreFiles /\
  (forall root',
     cutBelow 6 root' = cutBelow 6 root ->
     scanWorkspace JSON_parse rootPath root' ignoreDirs ignoreFiles =
     scanWorkspace JSON_parse rootPath root ignoreDirs ignoreFiles) /\
  (forall names fileName,
     List.length names <= maxDepth ->
     forallb (admitted (defaultIgnoreDirs ++ ignoreDirs)) names = true ->
     Js.includes (defaultIgnoreFiles ++ ignoreFiles) fileName = false ->
     isLikelyImportantFile
       (NodePath.text (NodePath.join (rootPath ++ names)%list fileName))
     = true ->
     holds names fileName root ->
     exists r,
       scanWorkspace JSON_parse rootPath root ignoreDirs ignoreFiles
       = Returned r /\
       In fileName (files r) /\ incl names (directories r)) /\
  (forall names inner,
     maxDepth < List.length names ->
     forallb (admitted (defaultIgnoreDirs ++ ignoreDirs)) names = true ->
     exists r,
       scanWorkspace JSON_parse rootPath (chain names inner)
         ignoreDirs ignoreFiles = Returned r /\
       files r = [] /\
       directories r = firstn (maxDepth + 1) names).
Proof.
  assert (H : forall d,
             scanWorkspace JSON_parse rootPath (cutBelow 6 d)
               ignoreDirs ignoreFiles =
             scanWorkspace JSON_parse rootPath d ignoreDirs ignoreFiles).
  { intros d. unfold scanWorkspace. cbv zeta.
    rewrite (identifyProjectType_cut 5 d). f_equal.
    apply (scanImportantFiles_cut d _ _ rootPath _ 0). }
  split; [apply H|]. split; [|split].
  - intros root' Hcut. rewrite <- (H root'), Hcut. apply H.
  - intros names fileName Hdepth Hadmitted Hignored Himportant Hholds.
    eexists. split; [reflexivity|].
    now apply scanImportantFiles_reaches.
  - intros names inner Hdepth Hadmitted.
    eexists. split; [reflexivity|].
    rewrite scanImportantFiles_chain by assumption.
    destruct (identifyProjectType_classified JSON_parse (chain names inner))
      as (Hf & Hd & _).
    destruct (fold_push_directory (firstn (maxDepth + 1 - 0) names)
                (identifyProjectType JSON_parse (chain names inner)
                   emptyResult)) as [Ef Ed].
    rewrite Ef, Ed, Hf, Hd, Nat.sub_0_r. split; reflexivity.
Qed.

(** X5.  The type and the tags come from the root's own listing alone: they
    are the same for any tree with that listing of the root, and whatever
    the ignore lists, which the classifier does not consult. *)
Theorem classification_from_root_listing rootPath root root'
    ignoreDirs ignoreFiles ignoreDirs' ignoreFiles' :
  cutBelow 1 root' = cutBelow 1 root ->
  exists r r',
    scanWorkspace JSON_parse rootPath root ignoreDirs ignoreFiles
    = Returned r /\
    scanWorkspace JSON_parse rootPath root' ignoreDirs' ignoreFiles'
    = Returned r' /\
    projectType r' = projectType r /\
    mainLanguages r' = mainLanguages r.
Proof.
  intros Hcut. eexists. eexists.
  split; [reflexivity|]. split; [reflexivity|].
  match goal with
  | |- projectType (scanImportantFiles ?dI ?fI ?p ?d ?r ?n) = _ /\ _ =>
      destruct (scanImportantFiles_frame dI fI p d r n) as [Ht Hl]
  end.
  rewrite Ht, Hl.
  match goal with
  | |- _ = projectType (scanImportantFiles ?dI ?fI ?p ?d ?r ?n) /\ _ =>
      destruct (scanImportantFiles_frame dI fI p d r n) as [Ht' Hl']
  end.
  rewrite Ht', Hl'.
  rewrite <- (identifyProjectType_cut 0 root'), Hcut,
    (identifyProjectType_cut 0 root).
  split; reflexivity.
Qed.

End ClassifierReach.

(** ** Ignored directories *)

Lemma readFileSync_without_directory before dirName sub after name :
  dirName <> name ->
  readFileSync (before ++ Directory dirName sub :: after)%list name =
  readFileSync (before ++ after)%list name.
Proof.
  intros Hne. unfold readFileSync.
  induction before as [|e es IH]; cbn [app find entry_name].
  - apply String.eqb_neq in Hne. now rewrite Hne.
  - destruct (String.eqb (entry_name e) name); [reflexivity | exact IH].
Qed.

(** A directory the oracle rejects is none of the manifests the
    classifier reads by name. *)
Lemma rejected_not_manifest dirName :
  In dirName defaultIgnoreDirs \/ isLikelyImportantDirectory dirName = false ->
  dirName <> "package.json" /\ dirName <> "requirements.txt".
Proof.
  intros [Hin|Hrej]; split; intros ->; try discriminate;
    simpl in Hin; intuition discriminate.
Qed.

Section IgnoredDirectories.

Variable JSON_parse : string -> option Json.

(** X6.  A directory whose name is ignored, or that the oracle rejects, is
    passed over with everything it contains: the walk of a listing goes as
    if the directory were not listed.  For the names the scanner itself
    ignores or rejects, so does the whole scan of a root that lists it. *)
Theorem ignored_directory_contributes_nothing dirName sub before after :
  (forall dirsToIgnore filesToIgnore rootPath r depth,
     Js.includes dirsToIgnore dirName = true \/
     isLikelyImportantDirectory dirName = false ->
     scanImportantFiles dirsToIgnore filesToIgnore rootPath
       (Listing (before ++ Directory dirName sub :: after)%list) r depth =
     scanImportantFiles dirsToIgnore filesToIgnore rootPath
       (Listing (before ++ after)%list) r depth) /\
  (forall rootPath ignoreDirs ignoreFiles,
     In dirName defaultIgnoreDirs \/
     isLikelyImportantDirectory dirName = false ->
     scanWorkspace JSON_parse rootPath
       (Listing (before ++ Directory dirName sub :: after)%list)
       ignoreDirs ignoreFiles =
     scanWorkspace JSON_parse rootPath
       (Listing (before ++ after)%list) ignoreDirs ignoreFiles).
Proof.
  assert (Hwalk : forall dirsToIgnore filesToIgnore rootPath r depth,
     Js.includes dirsToIgnore dirName = true \/
     isLikelyImportantDirectory dirName = false ->
     scanImportantFiles dirsToIgnore filesToIgnore rootPath
       (Listing (before ++ Directory dirName sub :: after)%list) r depth =
     scanImportantFiles dirsToIgnore filesToIgnore rootPath
       (Listing (before ++ after)%list) r depth).
  { intros dI fI rootPath r depth Hskip.
    rewrite !scanImportantFiles_app.
    change (Directory dirName sub :: after)
      with ([Directory dirName sub] ++ after)%list.
    rewrite scanImportantFiles_app. f_equal.
    rewrite scanImportantFiles_eq.
    destruct (maxDepth <? depth)%nat; [reflexivity|].
    cbn [fold_left visitEntry].
    destruct Hskip as [H|H]; rewrite H; [reflexivity|].
    destruct (Js.includes dI dirName); reflexivity. }
  split; [exact Hwalk|].
  intros rootPath ignoreDirs ignoreFiles Hskip.
  destruct (rejected_not_manifest dirName Hskip) as [Hpkg Hreq].
  unfold scanWorkspace. cbv zeta. f_equal.
  assert (Hid : identifyProjectType JSON_parse
                  (Listing (before ++ Directory dirName sub :: after)%list)
                  emptyResult =
                identifyProjectType JSON_parse
                  (Listing (before ++ after)%list) emptyResult).
  { unfold identifyProjectType. cbn [readdirSync].
    rewrite !fold_left_app. cbn [fold_left identifyEntry].
    assert (Hext : forall r e,
               identifyEntry JSON_parse
                 (before ++ Directory dirName sub :: after)%list r e =
               identifyEntry JSON_parse (before ++ after)%list r e).
    { intros r e. destruct e as [name data|name d|name]; try reflexivity.
      unfold identifyEntry, readPackageJson.
      now rewrite !readFileSync_without_directory by assumption. }
    assert (Hfold : forall es r,
               fold_left (identifyEntry JSON_parse
                            (before ++ Directory dirName sub :: after)%list)
                 es r =
               fold_left (identifyEntry JSON_parse (before ++ after)%list)
                 es r).
    { induction es as [|e es IH]; intros r; [reflexivity|].
      cbn [fold_left]. now rewrite IH, Hext. }
    now rewrite !Hfold. }
  rewrite Hid. apply Hwalk.
  destruct Hskip as [Hin|Hrej]; [left | now right].
  apply includes_true_iff. apply in_or_app. now left.
Qed.

End IgnoredDirectories.

(** ** What the classifier reports *)

(** The tag the classifier pushes with a project type. *)
Definition tagOf (t : ProjectType) : string :=
  match t with
  | node => "javascript"
  | python => "python"
  | java => "java"
  | rust => "rust"
  | go => "go"
  | ruby => "ruby"
  | php => "php"
  | unknown => EmptyString
  end.

Lemma markerType_known name t : markerType name = Some t -> t <> unknown.
Proof.
  unfold markerType.
  repeat match goal with
         | |- context [if ?b then _ else _] => destruct b
         end; intros H; inversion H; discriminate.
Qed.

(** A listing has no marker, or it has a last one. *)
Lemma last_marker_split (entries : list Entry) :
  Forall (fun e => entryMarker e = None) entries \/
  exists before e after t,
    entries = (before ++ e :: after)%list /\
    entryMarker e = Some t /\
    Forall (fun e' => entryMarker e' = None) after.
Proof.
  induction entries as [|e es IH]; [left; constructor|].
  destruct IH as [Hnone|(before & e' & after & t & -> & He' & Hafter)].
  - destruct (entryMarker e) as [t|] eqn:He.
    + right. exists [], e, es, t. auto.
    + left. now constructor.
  - right. exists (e :: before), e', after, t. auto.
Qed.

Section ClassifierReport.

Variable JSON_parse : string -> option Json.

(** The manifest only appends tags. *)
Lemma readPackageJson_languages entries r :
  exists more,
    mainLanguages (readPackageJson JSON_parse entries r)
    = (mainLanguages r ++ more)%list.
Proof.
  unfold readPackageJson.
  destruct (readFileSync entries "package.json") as [text|code];
    [|exists []; now rewrite app_nil_r].
  destruct (JSON_parse text) as [packageJson|];
    [|exists []; now rewrite app_nil_r].
  destruct packageJson; try (exists []; now rewrite app_nil_r);
    repeat match goal with
           | |- context [if ?b then _ else _] => destruct b
           end;
    unfold push_language, Js.push; cbn [mainLanguages set_content];
    rewrite <- ?app_assoc; eexists; reflexivity || (now rewrite app_nil_r).
Qed.

Lemma captureText_languages r key read :
  mainLanguages (captureText r key read) = mainLanguages r.
Proof. destruct read; reflexivity. Qed.

(** One entry of the root: the tags grow, and a marker brings the tag of
    its type. *)
Lemma identifyEntry_languages entries r e :
  (forall lang, In lang (mainLanguages r) ->
                In lang (mainLanguages (identifyEntry JSON_parse entries r e))) /\
  (forall t, entryMarker e = Some t ->
             In (tagOf t)
                (mainLanguages (identifyEntry JSON_parse entries r e))).
Proof.
  destruct e as [name data|name sub|name]; cbn [entryMarker identifyEntry];
    try (split; [auto | discriminate]).
  unfold markerType.
  set (fileName := Js.toLowerCase name).
  assert (Hpush : forall r0 tag lang,
             In lang (mainLanguages r0) ->
             In lang (mainLanguages (push_language r0 tag))).
  { intros r0 tag lang H. simpl. unfold Js.push. apply in_or_app. now left. }
  assert (Htag : forall r0 tag, In tag (mainLanguages (push_language r0 tag))).
  { intros r0 tag. simpl. unfold Js.push. apply in_or_app. right. now left. }
  destruct (String.eqb fileName "package.json").
  { destruct (readPackageJson_languages entries
                (push_language (set_projectType r node) "javascript"))
      as [more Hmore].
    rewrite Hmore. split.
    - intros lang H. apply in_or_app. left. now apply Hpush.
    - intros t Ht. inversion Ht. apply in_or_app. left. apply Htag. }
  destruct (String.eqb fileName "requirements.txt" ||
            String.eqb fileName "setup.py" ||
            String.eqb fileName "pyproject.toml").
  { destruct (String.eqb fileName "requirements.txt");
      rewrite ?captureText_languages; split;
      try (intros lang H; now apply Hpush);
      intros t Ht; inversion Ht; apply Htag. }
  destruct (String.eqb fileName "pom.xml");
    [split; [intros lang H; now apply Hpush
            | intros t Ht; inversion Ht; apply Htag]|].
  destruct (String.eqb fileName "cargo.toml");
    [split; [intros lang H; now apply Hpush
            | intros t Ht; inversion Ht; apply Htag]|].
  destruct (String.eqb fileName "go.mod");
    [split; [intros lang H; now apply Hpush
            | intros t Ht; inversion Ht; apply Htag]|].
  destruct (String.eqb fileName "gemfile");
    [split; [intros lang H; now apply Hpush
            | intros t Ht; inversion Ht; apply Htag]|].
  destruct (String.eqb fileName "composer.json");
    [split; [intros lang H; now apply Hpush
            | intros t Ht; inversion Ht; apply Htag]|].
  destruct (String.eqb fileName "dockerfile" ||
            String.eqb fileName "docker-compose.yml");
    [split; [intros lang H; now apply Hpush | discriminate]|].
  destruct (String.eqb fileName "readme.md");
    [rewrite captureText_languages; split; [auto | discriminate]|].
  destruct (Js.startsWith fileName "license");
    [rewrite captureText_languages; split; [auto | discriminate]|].
  split; [auto | discriminate].
Qed.

(** X7.  For a root that can be listed, the type is unknown exactly when
    the root lists no marker file. *)
Theorem unknown_iff_no_marker rootPath entries ignoreDirs ignoreFiles :
  exists r,
    scanWorkspace JSON_parse rootPath (Listing entries) ignoreDirs ignoreFiles
    = Returned r /\
    (projectType r = unknown <->
     Forall (fun e => entryMarker e = None) entries).
Proof.
  eexists. split; [reflexivity|].
  match goal with
  | |- projectType (scanImportantFiles ?dI ?fI ?p ?d ?r ?n) = _ <-> _ =>
      destruct (scanImportantFiles_frame dI fI p d r n) as [Ht _]
  end.
  rewrite Ht. unfold identifyProjectType. cbn [readdirSync].
  split.
  - intros Hunknown.
    destruct (last_marker_split entries)
      as [Hnone|(before & e & after & t & Hsplit & He & Hafter)];
      [assumption|].
    exfalso. revert Hunknown. rewrite Hsplit at 2.
    rewrite (identify_last_marker JSON_parse entries before e after
               emptyResult t He Hafter).
    destruct e as [name data|name sub|name]; try discriminate.
    now apply (markerType_known name).
  - intros Hnone. now rewrite identify_no_marker.
Qed.

(** X8.  The tag of the reported type is among the tags: javascript for a
    node project, python for a python project, and so on. *)
Theorem type_tag_present rootPath root ignoreDirs ignoreFiles :
  exists r,
    scanWorkspace JSON_parse rootPath root ignoreDirs ignoreFiles
    = Returned r /\
    (projectType r = unknown \/
     In (tagOf (projectType r)) (mainLanguages r)).
Proof.
  eexists. split; [reflexivity|].
  match goal with
  | |- projectType (scanImportantFiles ?dI ?fI ?p ?d ?r ?n) = _ \/ _ =>
      destruct (scanImportantFiles_frame dI fI p d r n) as [Ht Hl]
  end.
  rewrite Ht, Hl. unfold identifyProjectType.
  destruct (readdirSync root) as [entries|code]; [|now left].
  generalize entries at 1 3 5. intros all.
  assert (H0 : projectType emptyResult = unknown \/
               In (tagOf (projectType emptyResult))
                  (mainLanguages emptyResult)) by now left.
  revert H0. generalize emptyResult.
  induction entries as [|e es IH]; intros r Hr; [exact Hr|].
  cbn [fold_left]. apply IH.
  destruct (identifyEntry_spec JSON_parse all r e) as (_ & _ & Et & _).
  destruct (identifyEntry_languages all r e) as [Hgrow Hmark].
  rewrite Et.
  destruct (entryMarker e) as [t|]; [right; now apply Hmark|].
  destruct Hr as [Hr|Hr]; [now left | right; now apply Hgrow].
Qed.

(** X9.  When the manifest parses to something other than [null], the
    typescript tag is added exactly when [devDependencies] is truthy and
    typescript is truthy in it or in [dependencies]: without a truthy
    [devDependencies] the tag is never added, whatever [dependencies]
    lists. *)
Theorem typescript_tag_condition entries r text packageJson :
  readFileSync entries "package.json" = Returned text ->
  JSON_parse text = Some packageJson ->
  packageJson <> JNull ->
  ~ In "typescript" (mainLanguages r) ->
  let devDependencies := member (Some packageJson) "devDependencies" in
  let dependencies := member (Some packageJson) "dependencies" in
  In "typescript" (mainLanguages (readPackageJson JSON_parse entries r)) <->
  truthy devDependencies = true /\
  (truthy (member devDependencies "typescript") = true \/
   truthy dependencies = true /\
   truthy (member dependencies "typescript") = true).
Proof.
  intros Hread Hparse Hnull Hfresh devDependencies dependencies.
  unfold readPackageJson. rewrite Hread, Hparse.
  fold devDependencies dependencies.
  assert (Hcond :
    truthy devDependencies &&
    (truthy (member devDependencies "typescript") ||
     truthy dependencies && truthy (member dependencies "typescript")) = true
    <->
    truthy devDependencies = true /\
    (truthy (member devDependencies "typescript") = true \/
     truthy dependencies = true /\
     truthy (member dependencies "typescript") = true)).
  { rewrite andb_true_iff, orb_true_iff, andb_true_iff. reflexivity. }
  rewrite <- Hcond. clear Hcond.
  assert (Hin : forall l x, In "typescript" (l ++ [x])%list <->
                            In "typescript" l \/ x = "typescript").
  { intros l x. rewrite in_app_iff. simpl. intuition. }
  destruct packageJson; try (now elim Hnull);
    destruct (truthy devDependencies &&
              (truthy (member devDependencies "typescript") ||
               truthy dependencies &&
               truthy (member dependencies "typescript")));
    repeat match goal with
           | |- context [if ?b then _ else _] => destruct b
           end;
    unfold push_language, Js.push; cbn [mainLanguages set_content];
    rewrite ?Hin; intuition (try discriminate).
Qed.

End ClassifierReport.

(** * Further properties of the sample selector *)

(** Whether one of the three loops can take a key: its base name matches
    a priority pattern, the key matches a main-file pattern, or its
    extension is a source extension. *)
Definition eligible (workspaceData : ScanResult) (filePath : string) : bool :=
  matchesPriority workspaceData filePath ||
  existsb (fun p => regexp_test p filePath)
    (getMainFilePatterns (projectType workspaceData)
                         (mainLanguages workspaceData)) ||
  Js.includes
    (getSourceFileExtensions (projectType workspaceData)
                             (mainLanguages workspaceData))
    (Js.toLowerCase (NodePath.extname filePath)).

Section SelectorReach.

Variable String_of_Json : Json -> string.

(** X10.  The selector takes no key that matches none of its rules. *)
Theorem excerpts_all_eligible (workspaceData : ScanResult) :
  Forall (fun k => eligible workspaceData k = true)
    (excerpts (selectSamples String_of_Json workspaceData)).
Proof.
  set (P := fun st : Selection =>
              Forall (fun k => eligible workspaceData k = true) (excerpts st)).
  assert (Hadd : forall o st k,
             P st -> eligible workspaceData k = true ->
             P (addSample String_of_Json o st k)).
  { intros o st k Hst Hk. unfold P. cbn [excerpts addSample].
    unfold Js.push. apply Forall_app. split; [exact Hst|].
    constructor; [exact Hk | constructor]. }
  unfold selectSamples. cbv zeta.
  match goal with
  | |- Forall _ (excerpts ?st) => change (P st)
  end.
  set (st1 := fold_left _ (getPriorityFilesForProjectType _ _) _).
  assert (H1 : P st1).
  { subst st1. apply fold_left_keeps; [|constructor].
    intros st p Hp Hst. unfold unlessFull.
    destruct (maxSamples <=? sampleCount st)%nat; [assumption|].
    apply fold_left_keeps; [|assumption].
    intros st' k _ Hst'. unfold priorityStep, unlessFull.
    destruct (maxSamples <=? sampleCount st')%nat; [assumption|].
    destruct (regexp_test p _) eqn:Hm; [|assumption].
    apply Hadd; [assumption|].
    unfold eligible, matchesPriority.
    apply orb_true_iff. left. apply orb_true_iff. left.
    apply existsb_exists. now exists p. }
  set (st2 := fold_left _ (getMainFilePatterns _ _) st1).
  assert (H2 : P st2).
  { subst st2. apply fold_left_keeps; [|assumption].
    intros st p Hp Hst. unfold unlessFull.
    destruct (maxSamples <=? sampleCount st)%nat; [assumption|].
    apply fold_left_keeps; [|assumption].
    intros st' k _ Hst'. unfold mainStep, unlessFull.
    destruct (maxSamples <=? sampleCount st')%nat; [assumption|].
    destruct (Js.str_includes _ _); [assumption|].
    destruct (regexp_test p k) eqn:Hm; [|assumption].
    apply Hadd; [assumption|].
    unfold eligible.
    apply orb_true_iff. left. apply orb_true_iff. right.
    apply existsb_exists. now exists p. }
  destruct (sampleCount st2 <? maxSamples)%nat; [|assumption].
  apply fold_left_keeps; [|assumption].
  intros st' k _ Hst'. unfold sourceStep, unlessFull.
  destruct (maxSamples <=? sampleCount st')%nat; [assumption|].
  destruct (Js.str_includes _ _); [assumption|].
  destruct (Js.includes _ _) eqn:Hm; [|assumption].
  apply Hadd; [assumption|].
  unfold eligible. apply orb_true_iff. now right.
Qed.

(** X11.  The excerpts begin with the keys whose base name matches a priority
    pattern, pattern by pattern and, for one pattern, in the order of the
    keys, up to the cap; what follows matches no priority pattern; and
    below the cap no key that matches a priority pattern is left out. *)
Theorem priority_excerpts_first (workspaceData : ScanResult) :
  NoDup (obj_keys (fileContents workspaceData)) ->
  let st := selectSamples String_of_Json workspaceData in
  (exists later,
     excerpts st =
     (firstn maxSamples (priorityCandidates workspaceData) ++ later)%list /\
     Forall (fun k => matchesPriority workspaceData k = false) later) /\
  (List.length (excerpts st) < maxSamples ->
   forall k, In k (obj_keys (fileContents workspaceData)) ->
             matchesPriority workspaceData k = true ->
             In k (excerpts st)).
Proof.
  intros Hkeys st.
  destruct (selectSamples_selected String_of_Json workspaceData Hkeys)
    as (Hc & _ & _ & _ & _ & _ & later & Hlater & Hnon).
  fold st in Hc, Hlater.
  destruct (afterPriority_excerpts String_of_Json workspaceData) as [Hc1 He].
  split.
  - exists later. rewrite <- He. split; assumption.
  - intros Hroom k Hk Hm. rewrite Hlater. apply in_or_app. left.
    apply afterPriority_complete; try assumption.
    unfold counted in Hc1. rewrite Hc1.
    rewrite Hlater, length_app in Hroom. lia.
Qed.

End SelectorReach.

(** X12.  A name that matches a priority pattern also matches a main-file
    pattern of the same project, except the names in [.jsx], which the
    main-file patterns of a react project do not spell. *)
Theorem priority_names_are_main_names (t : ProjectType) (l : list string)
    (s : string) :
  existsb (fun p => regexp_test p s) (getPriorityFilesForProjectType t l)
  = true ->
  Js.endsWith (Js.toLowerCase s) ".jsx" = false ->
  existsb (fun p => regexp_test p s) (getMainFilePatterns t l) = true.
Proof.
  intros H Hjsx. apply existsb_exists in H. destruct H as [p [Hp Ht]].
  destruct t; cbn [getPriorityFilesForProjectType] in Hp;
    try destruct (Js.includes l "react") eqn:Hreact;
    simpl in Hp;
    repeat (destruct Hp as [Hp|Hp]; [subst p|]); try contradiction;
    (apply anchored_test in Ht; [|reflexivity]);
    simpl in Ht;
    repeat (destruct Ht as [Ht|Ht]); try contradiction;
    try (rewrite <- Ht in Hjsx; discriminate Hjsx);
    unfold getMainFilePatterns; rewrite ?Hreact;
    unfold regexp_test; simpl; rewrite <- Ht; reflexivity.
Qed.

Lemma priority_names_are_main_names_witness :
  existsb (fun p => regexp_test p "Index.TS")
    (getPriorityFilesForProjectType node ["javascript"; "react"]) = true /\
  Js.endsWith (Js.toLowerCase "Index.TS") ".jsx" = false /\
  existsb (fun p => regexp_test p "Index.TS")
    (getMainFilePatterns node ["javascript"; "react"]) = true.
Proof.
  split; [reflexivity|]. split; [reflexivity|].
  exact (priority_names_are_main_names node ["javascript"; "react"] "Index.TS"
           eq_refl eq_refl).
Defined.

(** The exception is real: [app.jsx] is a priority name of a react project
    and matches none of its main-file patterns. *)
Example jsx_is_no_main_name :
  existsb (fun p => regexp_test p "app.jsx")
    (getPriorityFilesForProjectType node ["javascript"; "react"]) = true /\
  existsb (fun p => regexp_test p "app.jsx")
    (getMainFilePatterns node ["javascript"; "react"]) = false.
Proof. split; reflexivity. Qed.

(** * From the scan to the selector *)

Section ScanThenSelect.

Variable JSON_parse : string -> option Json.
Variable String_of_Json : Json -> string.

(** X13.  The contents of a scan hold no key twice, so the selector applied to
    the result of any scan returns at most ten excerpts, no path twice,
    each a listed file or one of the classifier's keys. *)
Theorem scan_then_select rootPath root ignoreDirs ignoreFiles :
  exists r,
    scanWorkspace JSON_parse rootPath root ignoreDirs ignoreFiles
    = Returned r /\
    NoDup (obj_keys (fileContents r)) /\
    List.length (excerpts (selectSamples String_of_Json r)) <= maxSamples /\
    NoDup (excerpts (selectSamples String_of_Json r)) /\
    forall k, In k (excerpts (selectSamples String_of_Json r)) ->
              In k (files r) \/ In k canonicalKeys.
Proof.
  eexists. split; [reflexivity|].
  match goal with
  | |- NoDup (obj_keys (fileContents ?r)) /\ _ => set (result := r)
  end.
  assert (Hkeys : NoDup (obj_keys (fileContents result))).
  { subst result.
    apply (scanImportantFiles_rule _ _
             (fun r => NoDup (obj_keys (fileContents r)))).
    - intros r dirName _ _ Hr. exact Hr.
    - intros r fileName _ Hr. exact Hr.
    - intros r fileName text Hr. simpl. now apply obj_set_NoDup.
    - now destruct (identifyProjectType_classified JSON_parse root)
        as (_ & _ & _ & Hn). }
  split; [exact Hkeys|].
  destruct (selectSamples_selected String_of_Json result Hkeys)
    as (Hc & Hcap & Hnd & _ & _ & Hin & _).
  split; [unfold counted in Hc; lia|]. split; [exact Hnd|].
  intros k Hk. apply Hin in Hk. subst result.
  revert k Hk. apply scanImportantFiles_listed.
  intros k Hk. right.
  destruct (identifyProjectType_classified JSON_parse root)
    as (_ & _ & Hincl & _).
  now apply Hincl.
Qed.

End ScanThenSelect.

(** * The importance oracle and the case of names *)

Lemma lower_ascii_dot (c : ascii) :
  Ascii.eqb (Js.lower_ascii c) "." = Ascii.eqb c ".".
Proof. destruct c as [[] [] [] [] [] [] [] []]; reflexivity. Qed.

Lemma from_last_dot_lower (s : string) :
  NodePath.from_last_dot (Js.toLowerCase s)
  = option_map Js.toLowerCase (NodePath.from_last_dot s).
Proof.
  induction s as [|c s IH]; [reflexivity|].
  cbn [Js.toLowerCase NodePath.from_last_dot]. rewrite IH.
  destruct (NodePath.from_last_dot s); [reflexivity|].
  cbn [option_map]. rewrite lower_ascii_dot.
  destruct (Ascii.eqb c "."); reflexivity.
Qed.

Lemma dotdot_lower (s : string) :
  String.eqb (Js.toLowerCase s) ".." = String.eqb s "..".
Proof.
  destruct s as [|c [|d [|e s]]]; try reflexivity;
    cbn [Js.toLowerCase String.eqb]; rewrite !lower_ascii_dot; reflexivity.
Qed.

(** The extension of a base name. *)
Definition extensionOf (base : string) : string :=
  match base with
  | EmptyString => EmptyString
  | String c rest =>
      if String.eqb (String c rest) ".." then EmptyString
      else match NodePath.from_last_dot rest with
           | Some e => e
           | None => EmptyString
           end
  end.

Lemma extname_extensionOf (p : string) :
  NodePath.extname p = extensionOf (NodePath.basename p).
Proof. reflexivity. Qed.

Lemma extensionOf_lower (base : string) :
  Js.toLowerCase (extensionOf base) = extensionOf (Js.toLowerCase base).
Proof.
  destruct base as [|c rest]; [reflexivity|].
  pose proof (dotdot_lower (String c rest)) as Hdots.
  cbn [Js.toLowerCase] in Hdots.
  cbn [Js.toLowerCase]. unfold extensionOf.
  rewrite Hdots, from_last_dot_lower.
  destruct (String.eqb (String c rest) ".."); [reflexivity|].
  destruct (NodePath.from_last_dot rest); reflexivity.
Qed.

(** X14.  Whether a file is important depends on its base name only, and not
    on the case of its letters. *)
Theorem importance_ignores_case_and_directory (p q : string) :
  Js.toLowerCase (NodePath.basename p) = Js.toLowerCase (NodePath.basename q) ->
  isLikelyImportantFile p = isLikelyImportantFile q.
Proof.
  intros H. unfold isLikelyImportantFile.
  rewrite !extname_extensionOf, !extensionOf_lower, H. reflexivity.
Qed.

Lemma importance_ignores_case_and_directory_witness :
  Js.toLowerCase (NodePath.basename "/srv/App/README.MD")
  = Js.toLowerCase (NodePath.basename "/home/dev/readme.md") /\
  isLikelyImportantFile "/srv/App/README.MD"
  = isLikelyImportantFile "/home/dev/readme.md".
Proof.
  split; [reflexivity|].
  exact (importance_ignores_case_and_directory "/srv/App/README.MD"
           "/home/dev/readme.md" eq_refl).
Defined.

(** * The error handler ([src/errorHandler.js]) *)

Module ErrorHandler.

Section Handler.

(** An error object is any value; the handler reads three of its
    properties.  [message] and [code] are [None] when the property is
    [undefined], and strings otherwise. *)
Variable Error : Type.
Variable isAxiosError : Error -> bool.
Variable code : Error -> option string.
Variable message : Error -> option string.

(** [handleOllamaError], which reads the response of an HTTP request. *)
Variable handleOllamaError : Error -> string.

(** [`${error.message}`] *)
Definition messageText (error : Error) : string :=
  match message error with
  | Some m => m
  | None => "undefined"
  end.

(** [error.message && error.message.includes(word)] *)
Definition messageIncludes (error : Error) (word : string) : bool :=
  match message error with
  | Some m => negb (String.eqb m EmptyString) && Js.str_includes m word
  | None => false
  end.

(** [error.code === name] *)
Definition codeIs (error : Error) (name : string) : bool :=
  match code error with
  | Some c => String.eqb c name
  | None => false
  end.

Definition handleGeminiError (error : Error) : string :=
  if messageIncludes error "API key" then
    "Invalid Gemini API key. Please check your API key and try again."
  else if messageIncludes error "quota" then
    "Gemini API quota exceeded. Please try again later or check your API usage limits."
  else if messageIncludes error "model" then
    "The specified Gemini model is not available. Please try a different model."
  else if messageIncludes error "content" then
    "The content sent to Gemini API was rejected. It may contain prohibited content."
  else "Gemini API error: " ++ messageText error.

Definition handleFileSystemError (error : Error) : string :=
  if codeIs error "ENOENT" then "File or directory not found."
  else if codeIs error "EACCES" then
    "Permission denied. Cannot access file or directory."
  else if codeIs error "EISDIR" then "Expected a file but found a directory."
  else "File system error: " ++ messageText error.

(** [showError(error, context)]: the message it passes to
    [vscode.window.showErrorMessage]. *)
Definition showError (error : Error) (context : string) : string :=
  if isAxiosError error then handleOllamaError error
  else if messageIncludes error "Gemini" ||
          messageIncludes error "API key" ||
          messageIncludes error "generative" then
    handleGeminiError error
  else if match code error with
          | Some c =>
              negb (String.eqb c EmptyString) &&
              Js.includes ["ENOENT"; "EACCES"; "EISDIR"] c
          | None => false
          end then
    handleFileSystemError error
  else
    "Error " ++
    (if String.eqb context EmptyString then EmptyString
     else "while " ++ context) ++
    ": " ++ messageText error.

(** X15.  An error that is not from Axios and whose message mentions an API key
    is shown as an invalid Gemini key, whatever else it carries: a code of
    the file system, or the words of a quota or model error. *)
Theorem api_key_message_wins (error : Error) (context m : string) :
  isAxiosError error = false ->
  message error = Some m ->
  Js.str_includes m "API key" = true ->
  showError error context =
  "Invalid Gemini API key. Please check your API key and try again.".
Proof.
  intros Haxios Hmessage Hincludes.
  assert (Hkey : messageIncludes error "API key" = true).
  { unfold messageIncludes. rewrite Hmessage, Hincludes.
    destruct m; [discriminate Hincludes | reflexivity]. }
  unfold showError, handleGeminiError. rewrite Haxios, Hkey.
  rewrite orb_true_r. reflexivity.
Qed.

(** X16.  For an error that is not from Axios, [showError] never shows the
    fallback text of [handleFileSystemError]: it calls that handler only
    with one of the three codes the handler has a text for. *)
Theorem file_system_fallback_unreachable (error : Error) (context : string) :
  isAxiosError error = false ->
  Js.startsWith (showError error context) "File system error" = false.
Proof.
  intros Haxios. unfold showError. rewrite Haxios.
  destruct (_ || _ || _).
  { unfold handleGeminiError.
    repeat match goal with
           | |- context [if ?b then _ else _] => destruct b
           end; reflexivity. }
  unfold handleFileSystemError, codeIs.
  destruct (code error) as [c|]; [|reflexivity].
  destruct (negb (String.eqb c EmptyString)); [|reflexivity].
  unfold Js.includes. cbn [andb existsb].
  destruct (String.eqb c "ENOENT"); [reflexivity|].
  destruct (String.eqb c "EACCES"); [reflexivity|].
  destruct (String.eqb c "EISDIR"); reflexivity.
Qed.

End Handler.

(** An error of the file system whose message quotes an API key. *)
Record SampleError := mkSampleError {
  sampleAxios : bool;
  sampleCode : option string;
  sampleMessage : option string
}.

Definition keyFileError : SampleError :=
  mkSampleError false (Some "ENOENT")
    (Some "ENOENT: no such file, open 'API key.txt'").

End ErrorHandler.

Lemma api_key_message_wins_witness :
  ErrorHandler.sampleAxios ErrorHandler.keyFileError = false /\
  Js.str_includes "ENOENT: no such file, open 'API key.txt'" "API key" = true /\
  ErrorHandler.showError ErrorHandler.SampleError ErrorHandler.sampleAxios
    ErrorHandler.sampleCode ErrorHandler.sampleMessage
    (fun _ => EmptyString) ErrorHandler.keyFileError "generating README" =
  "Invalid Gemini API key. Please check your API key and try again.".
Proof.
  split; [reflexivity|]. split; [reflexivity|].
  exact (ErrorHandler.api_key_message_wins ErrorHandler.SampleError
           ErrorHandler.sampleAxios ErrorHandler.sampleCode
           ErrorHandler.sampleMessage (fun _ => EmptyString)
           ErrorHandler.keyFileError "generating README"
           "ENOENT: no such file, open 'API key.txt'"
           eq_refl eq_refl eq_refl).
Defined.

Lemma file_system_fallback_unreachable_witness :
  ErrorHandler.sampleAxios ErrorHandler.keyFileError = false /\
  Js.startsWith
    (ErrorHandler.showError ErrorHandler.SampleError ErrorHandler.sampleAxios
       ErrorHandler.sampleCode ErrorHandler.sampleMessage
       (fun _ => EmptyString) ErrorHandler.keyFileError "generating README")
    "File system error" = false.
Proof.
  split; [reflexivity|].
  exact (ErrorHandler.file_system_fallback_unreachable
           ErrorHandler.SampleError ErrorHandler.sampleAxios
           ErrorHandler.sampleCode ErrorHandler.sampleMessage
           (fun _ => EmptyString) ErrorHandler.keyFileError
           "generating README" eq_refl).
Defined.

(** * The further properties on concrete workspaces *)

Module MoreFixtures.

(** [levels] directories called [pkg], one inside the other, around
    [inner]. *)
Fixpoint nested (levels : nat) (inner : Dir) : Dir :=
  match levels with
  | 0 => inner
  | S n => Listing [ Directory "pkg" (nested n inner) ]
  end.

(** Two workspaces that differ inside their sixth directory only. *)
Definition deepLeft : Dir :=
  nested 6 (Listing [ File "left.js" (Returned "// left") ]).

Definition deepRight : Dir :=
  nested 6 (Listing [ File "right.py" (Returned "# right");
                      Directory "more" (Listing []) ]).

(** A file five directories down, next to a note, and the way to it. *)
Definition fiveDown : list string := [ "a"; "b"; "c"; "d"; "e" ].

Definition fifthLevel : Dir :=
  chain fiveDown
    (Listing [ File "notes" (Returned "to do");
               File "left.js" (Returned "// left") ]).

Definition sevenDown : list string := [ "a"; "b"; "c"; "d"; "e"; "f"; "g" ].

(** The typescript workspace with its [src] emptied. *)
Definition shallowTypescriptWorkspace : Dir :=
  Listing
    [ File "package.json" (Returned Fixtures.manifestDevTypescript);
      Directory "src" (Listing []) ].

Definition dependencyCache : Dir :=
  Listing [ File "index.js" (Returned "module.exports = {};");
            Directory "lib" (Listing [ File "util.js" (Returned "//") ]) ].

Definition runtimeManifestEntries : list Entry :=
  [ File "package.json" (Returned Fixtures.manifestRuntimeTypescript) ].

Definition runtimeManifest : Json :=
  JObject [("dependencies", JObject [("typescript", JString "^5.0.0")])].

End MoreFixtures.

Lemma scan_depth_bounded_witness :
  cutBelow 6 MoreFixtures.deepRight = cutBelow 6 MoreFixtures.deepLeft /\
  scanWorkspace Fixtures.JSON_parse Fixtures.workspacePath
    MoreFixtures.deepRight [] [] =
  scanWorkspace Fixtures.JSON_parse Fixtures.workspacePath
    MoreFixtures.deepLeft [] [] /\
  holds MoreFixtures.fiveDown "left.js" MoreFixtures.fifthLevel /\
  (exists r,
     scanWorkspace Fixtures.JSON_parse Fixtures.workspacePath
       MoreFixtures.fifthLevel [] [] = Returned r /\
     In "left.js" (files r) /\ incl MoreFixtures.fiveDown (directories r)) /\
  (exists r,
     scanWorkspace Fixtures.JSON_parse Fixtures.workspacePath
       (chain MoreFixtures.sevenDown
          (Listing [ File "left.js" (Returned "// left") ])) [] []
     = Returned r /\
     files r = [] /\
     directories r = [ "a"; "b"; "c"; "d"; "e"; "f" ]).
Proof.
  assert (H : cutBelow 6 MoreFixtures.deepRight
              = cutBelow 6 MoreFixtures.deepLeft) by reflexivity.
  assert (Hholds : holds MoreFixtures.fiveDown "left.js"
                     MoreFixtures.fifthLevel).
  { repeat (eexists; split; [left; reflexivity|]).
    eexists. right. left. reflexivity. }
  split; [exact H|].
  destruct (scan_depth_bounded Fixtures.JSON_parse Fixtures.workspacePath
              MoreFixtures.deepLeft [] []) as (_ & Hsame & _ & _).
  split; [exact (Hsame MoreFixtures.deepRight H)|].
  split; [exact Hholds|].
  destruct (scan_depth_bounded Fixtures.JSON_parse Fixtures.workspacePath
              MoreFixtures.fifthLevel [] []) as (_ & _ & Hreach & _).
  split.
  - apply (Hreach MoreFixtures.fiveDown "left.js");
      [apply Nat.le_refl | reflexivity | reflexivity | reflexivity
      | exact Hholds].
  - destruct (scan_depth_bounded Fixtures.JSON_parse Fixtures.workspacePath
                (NoListing "ENOENT") [] []) as (_ & _ & _ & Hlimit).
    apply (Hlimit MoreFixtures.sevenDown
             (Listing [ File "left.js" (Returned "// left") ]));
      [unfold maxDepth; simpl; repeat constructor | reflexivity].
Defined.

(** Both ends of the reach on one chain: five directories down the file
    is recorded, six down it is not. *)
Example fifth_level_is_scanned :
  (exists r,
     scanWorkspace Fixtures.JSON_parse Fixtures.workspacePath
       (MoreFixtures.nested 5 (Listing [ File "left.js" (Returned "// left") ]))
       [] [] = Returned r /\
     files r = [ "left.js" ] /\
     List.length (directories r) = 5) /\
  (exists r,
     scanWorkspace Fixtures.JSON_parse Fixtures.workspacePath
       MoreFixtures.deepLeft [] [] = Returned r /\
     files r = [] /\
     List.length (directories r) = 6).
Proof.
  split; eexists; (split; [reflexivity|]); vm_compute; split; reflexivity.
Qed.

Lemma classification_from_root_listing_witness :
  cutBelow 1 MoreFixtures.shallowTypescriptWorkspace
  = cutBelow 1 Fixtures.typescriptWorkspace /\
  exists r r',
    scanWorkspace Fixtures.JSON_parse Fixtures.workspacePath
      Fixtures.typescriptWorkspace [] [] = Returned r /\
    scanWorkspace Fixtures.JSON_parse Fixtures.workspacePath
      MoreFixtures.shallowTypescriptWorkspace ["src"] ["package.json"]
    = Returned r' /\
    projectType r' = projectType r /\
    mainLanguages r' = mainLanguages r.
Proof.
  assert (H : cutBelow 1 MoreFixtures.shallowTypescriptWorkspace
              = cutBelow 1 Fixtures.typescriptWorkspace) by reflexivity.
  split; [exact H|].
  exact (classification_from_root_listing Fixtures.JSON_parse
           Fixtures.workspacePath Fixtures.typescriptWorkspace
           MoreFixtures.shallowTypescriptWorkspace
           [] [] ["src"] ["package.json"] H).
Defined.

Lemma ignored_directory_contributes_nothing_witness :
  In "node_modules" defaultIgnoreDirs /\
  scanWorkspace Fixtures.JSON_parse Fixtures.workspacePath
    (Listing
       ([ File "package.json" (Returned Fixtures.manifestDevTypescript) ] ++
        Directory "node_modules" MoreFixtures.dependencyCache ::
        [ File "index.ts" (Returned "export {};") ])%list) [] [] =
  scanWorkspace Fixtures.JSON_parse Fixtures.workspacePath
    (Listing
       ([ File "package.json" (Returned Fixtures.manifestDevTypescript) ] ++
        [ File "index.ts" (Returned "export {};") ])%list) [] [].
Proof.
  assert (H : In "node_modules" defaultIgnoreDirs) by (simpl; auto).
  split; [exact H|].
  exact (proj2 (ignored_directory_contributes_nothing Fixtures.JSON_parse
                  "node_modules" MoreFixtures.dependencyCache
                  [ File "package.json" (Returned Fixtures.manifestDevTypescript) ]
                  [ File "index.ts" (Returned "export {};") ])
           Fixtures.workspacePath [] [] (or_introl H)).
Defined.

Lemma typescript_tag_condition_witness :
  readFileSync MoreFixtures.runtimeManifestEntries "package.json"
  = Returned Fixtures.manifestRuntimeTypescript /\
  Fixtures.JSON_parse Fixtures.manifestRuntimeTypescript
  = Some MoreFixtures.runtimeManifest /\
  MoreFixtures.runtimeManifest <> JNull /\
  ~ In "typescript" (mainLanguages emptyResult) /\
  (In "typescript"
     (mainLanguages
        (readPackageJson Fixtures.JSON_parse
           MoreFixtures.runtimeManifestEntries emptyResult)) <->
   truthy (member (Some MoreFixtures.runtimeManifest) "devDependencies")
   = true /\
   (truthy (member (member (Some MoreFixtures.runtimeManifest)
                      "devDependencies") "typescript") = true \/
    truthy (member (Some MoreFixtures.runtimeManifest) "dependencies")
    = true /\
    truthy (member (member (Some MoreFixtures.runtimeManifest)
                      "dependencies") "typescript") = true)).
Proof.
  assert (H1 : readFileSync MoreFixtures.runtimeManifestEntries "package.json"
               = Returned Fixtures.manifestRuntimeTypescript) by reflexivity.
  assert (H2 : Fixtures.JSON_parse Fixtures.manifestRuntimeTypescript
               = Some MoreFixtures.runtimeManifest) by reflexivity.
  assert (H3 : MoreFixtures.runtimeManifest <> JNull) by discriminate.
  assert (H4 : ~ In "typescript" (mainLanguages emptyResult))
    by (intros []).
  split; [exact H1|]. split; [exact H2|]. split; [exact H3|].
  split; [exact H4|].
  exact (typescript_tag_condition Fixtures.JSON_parse
           MoreFixtures.runtimeManifestEntries emptyResult
           Fixtures.manifestRuntimeTypescript MoreFixtures.runtimeManifest
           H1 H2 H3 H4).
Defined.

Lemma priority_excerpts_first_witness :
  NoDup (obj_keys (fileContents Fixtures.sampleData)) /\
  (exists later,
     excerpts (selectSamples Fixtures.String_of_Json Fixtures.sampleData) =
     (firstn maxSamples (priorityCandidates Fixtures.sampleData) ++ later)%list /\
     Forall (fun k => matchesPriority Fixtures.sampleData k = false) later) /\
  firstn maxSamples (priorityCandidates Fixtures.sampleData) = [ "index.js" ].
Proof.
  assert (H : NoDup (obj_keys (fileContents Fixtures.sampleData))).
  { cbn. repeat constructor; cbn; intuition discriminate. }
  split; [exact H|].
  split; [|reflexivity].
  exact (proj1 (priority_excerpts_first Fixtures.String_of_Json
                  Fixtures.sampleData H)).
Defined.

(** * Files that are listed but never read *)

(** The extensions the oracle holds important and the walker does not
    read. *)
Definition unreadImportantExtensions : list string :=
  [ ".rst"; ".hpp"; ".swift"; ".kt"; ".rs" ].

(** X17.  A file whose extension is important but not among those the walker
    reads (a Rust, Swift or Kotlin source, a C++ header, a
    reStructuredText document) is listed and its content is never stored:
    being important, it does not reach the branch of source files either,
    not even in a Rust project.  [fileName] is an entry name: a base name
    in itself and in the path of the entry. *)
Theorem important_unread_extensions filesToIgnore sourceExtensions maxFiles
    rootPath r fileName data :
  NodePath.basename (NodePath.text (NodePath.join rootPath fileName))
  = fileName ->
  NodePath.basename fileName = fileName ->
  In (Js.toLowerCase (NodePath.extname fileName)) unreadImportantExtensions ->
  let r' := visitFile filesToIgnore sourceExtensions maxFiles rootPath r
              fileName data in
  fileContents r' = fileContents r /\
  (r' = r \/ r' = push_file r fileName).
Proof.
  intros Hpath Hbase Hext r'. subst r'.
  assert (Hsame : NodePath.extname
                    (NodePath.text (NodePath.join rootPath fileName))
                  = NodePath.extname fileName).
  { now rewrite !extname_extensionOf, Hpath, Hbase. }
  assert (Himportant :
            isLikelyImportantFile
              (NodePath.text (NodePath.join rootPath fileName)) = true).
  { unfold isLikelyImportantFile. rewrite Hsame.
    destruct (Js.includes importantRootFiles _); [reflexivity|].
    assert (H : Js.includes importantExtensions
                  (Js.toLowerCase (NodePath.extname fileName)) = true).
    { apply includes_true_iff. simpl in Hext. simpl.
      repeat (destruct Hext as [<-|Hext]; [auto 40|]). contradiction. }
    now rewrite H. }
  assert (Hunread : readableName fileName = false).
  { unfold readableName.
    assert (Hlow : Js.toLowerCase (NodePath.extname fileName)
                   = extensionOf (Js.toLowerCase fileName)).
    { now rewrite extname_extensionOf, Hbase, extensionOf_lower. }
    assert (H1 : Js.includes readableExtensions
                   (Js.toLowerCase (NodePath.extname fileName)) = false).
    { simpl in Hext.
      repeat (destruct Hext as [<-|Hext]; [reflexivity|]). contradiction. }
    rewrite H1. cbn [orb].
    rewrite Hlow in Hext.
    destruct (String.eqb_spec (Js.toLowerCase fileName) "dockerfile") as [E|_];
      [rewrite E in Hext; simpl in Hext; intuition discriminate|].
    destruct (String.eqb_spec (Js.toLowerCase fileName) "makefile") as [E|_];
      [rewrite E in Hext; simpl in Hext; intuition discriminate|].
    destruct (String.eqb_spec (Js.toLowerCase fileName) "license") as [E|_];
      [rewrite E in Hext; simpl in Hext; intuition discriminate|].
    reflexivity. }
  unfold visitFile. rewrite relative_join, Himportant.
  unfold readableName in Hunread. rewrite Hunread.
  destruct (Js.includes filesToIgnore fileName); [split; auto|].
  destruct (maxFiles <=? _)%nat; split; auto.
Qed.

Lemma important_unread_extensions_witness :
  NodePath.basename (NodePath.text (NodePath.join Fixtures.workspacePath "main.rs"))
  = "main.rs" /\
  NodePath.basename "main.rs" = "main.rs" /\
  In (Js.toLowerCase (NodePath.extname "main.rs")) unreadImportantExtensions /\
  fileContents
    (visitFile defaultIgnoreFiles (getSourceFileExtensions rust ["rust"])
       (calculateMaxFiles rust) Fixtures.workspacePath
       (set_projectType emptyResult rust) "main.rs"
       (Returned "fn main() {}"))
  = fileContents (set_projectType emptyResult rust).
Proof.
  assert (H1 : NodePath.basename
                 (NodePath.text (NodePath.join Fixtures.workspacePath "main.rs"))
               = "main.rs") by reflexivity.
  assert (H2 : NodePath.basename "main.rs" = "main.rs") by reflexivity.
  assert (H3 : In (Js.toLowerCase (NodePath.extname "main.rs"))
                  unreadImportantExtensions) by (simpl; auto 10).
  split; [exact H1|]. split; [exact H2|]. split; [exact H3|].
  exact (proj1 (important_unread_extensions defaultIgnoreFiles
                  (getSourceFileExtensions rust ["rust"])
                  (calculateMaxFiles rust) Fixtures.workspacePath
                  (set_projectType emptyResult rust) "main.rs"
                  (Returned "fn main() {}") H1 H2 H3)).
Defined.

(** A Rust project: the manifest is read, the source is only listed, and
    the selector has nothing to show. *)
Example rust_project_scan :
  exists r,
    scanWorkspace Fixtures.JSON_parse Fixtures.workspacePath
      (Listing
         [ File "Cargo.toml" (Returned "[package]");
           Directory "src"
             (Listing [ File "main.rs" (Returned "fn main() {}") ]) ])
      [] [] = Returned r /\
    projectType r = rust /\
    files r = [ "Cargo.toml"; "main.rs" ] /\
    obj_keys (fileContents r) = [ "Cargo.toml" ] /\
    getSourceCodeSamples Fixtures.String_of_Json r = EmptyString.
Proof.
  eexists. split; [reflexivity|]. vm_compute. repeat split.
Qed.

(** * A root of rejected directories *)

Section RejectedRoot.

Variable JSON_parse : string -> option Json.

(** Whether the scan passes over an entry of the root without a trace. *)
Definition passedOver (ignoreDirs : list string) (e : Entry) : Prop :=
  match e with
  | Directory name _ =>
      In name defaultIgnoreDirs \/ In name ignoreDirs \/
      isLikelyImportantDirectory name = false
  | Other _ => True
  | File _ _ => False
  end.

(** X18.  A root that lists nothing but directories that are ignored or
    rejected (and entries that are neither files nor directories) scans to
    the empty result, whatever those directories contain. *)
Theorem rejected_root_scans_empty rootPath entries ignoreDirs ignoreFiles :
  Forall (passedOver ignoreDirs) entries ->
  scanWorkspace JSON_parse rootPath (Listing entries) ignoreDirs ignoreFiles
  = Returned emptyResult.
Proof.
  intros H. unfold scanWorkspace. cbv zeta. f_equal.
  assert (Hid : identifyProjectType JSON_parse (Listing entries) emptyResult
                = emptyResult).
  { unfold identifyProjectType. cbn [readdirSync].
    generalize entries at 1. intros all.
    generalize emptyResult.
    induction H as [|e es He Hes IH]; intros r; [reflexivity|].
    cbn [fold_left]. rewrite <- (IH r) at 2. f_equal.
    destruct e; [contradiction | reflexivity | reflexivity]. }
  rewrite Hid, scanImportantFiles_eq. clear Hid.
  change (maxDepth <? 0)%nat with false. cbv iota.
  generalize (getSourceFileExtensions (projectType emptyResult)
                                      (mainLanguages emptyResult)).
  generalize (calculateMaxFiles (projectType emptyResult)).
  intros maxFiles sourceExtensions.
  generalize emptyResult.
  induction H as [|e es He Hes IH]; intros r; [reflexivity|].
  cbn [fold_left]. rewrite <- (IH r) at 2. f_equal.
  destruct e as [name data|name sub|name];
    [contradiction | | reflexivity].
  cbn [visitEntry].
  destruct (Js.includes (defaultIgnoreDirs ++ ignoreDirs) name) eqn:Hinc;
    [reflexivity|].
  destruct He as [Hin|[Hin|Hrej]].
  - assert (Js.includes (defaultIgnoreDirs ++ ignoreDirs) name = true)
      by (apply includes_true_iff; apply in_or_app; auto).
    congruence.
  - assert (Js.includes (defaultIgnoreDirs ++ ignoreDirs) name = true)
      by (apply includes_true_iff; apply in_or_app; auto).
    congruence.
  - now rewrite Hrej.
Qed.

End RejectedRoot.

Lemma rejected_root_scans_empty_witness :
  Forall (passedOver ["vendor"])
    [ Directory "node_modules" MoreFixtures.dependencyCache;
      Directory "vendor" MoreFixtures.dependencyCache;
      Directory "Venv" MoreFixtures.dependencyCache ] /\
  scanWorkspace Fixtures.JSON_parse Fixtures.workspacePath
    (Listing
       [ Directory "node_modules" MoreFixtures.dependencyCache;
         Directory "vendor" MoreFixtures.dependencyCache;
         Directory "Venv" MoreFixtures.dependencyCache ])
    ["vendor"] [] = Returned emptyResult.
Proof.
  assert (H : Forall (passedOver ["vendor"])
                [ Directory "node_modules" MoreFixtures.dependencyCache;
                  Directory "vendor" MoreFixtures.dependencyCache;
                  Directory "Venv" MoreFixtures.dependencyCache ]).
  { constructor; [left; simpl; auto|].
    constructor; [right; left; simpl; auto|].
    constructor; [right; right; reflexivity|]. constructor. }
  split; [exact H|].
  exact (rejected_root_scans_empty Fixtures.JSON_parse Fixtures.workspacePath
           _ ["vendor"] [] H).
Defined.
